(** * Dekr weekly podcast generator: a shallow embedding of
      [packages/podcast-generator/podcast_generator.py]

    The Python class [PodcastGenerator] is a linear pipeline over external
    collaborators (a chat backend, a speech backend, an object store, a
    document store, the local file system and the MP3 codec).  The embedding
    keeps the control flow of every method, models the pure library code the
    methods call ([dict.get], truthiness, [datetime] arithmetic, [json.dumps],
    pydub's in-memory operations) by definitions that compute, and takes the
    behaviour of the collaborators as an environment of oracles that may
    return or raise.  Calls to the logger are left out: no branch depends on
    them. *)

From Stdlib Require Import ZArith QArith Qround Lia.
From stdpp Require Import gmap strings list pretty.

Set Warnings "-register-all".
Local Open Scope string_scope.
Local Open Scope Z_scope.

(** ** Exceptions and results

    Every exception of the model is an instance of Python's [Exception], the
    class the [except Exception] clauses of the source catch. *)

Inductive exn : Type :=
| TypeError
| ValueError (msg : string)
| AttributeError
| IndexError
| KeyError (key : string)
| OtherError (class_name : string).

Inductive result (A : Type) : Type :=
| Ok (a : A)
| Raise (e : exn).
Arguments Ok {A} a.
Arguments Raise {A} e.

#[global] Instance result_ret : MRet result := fun A a => Ok a.
#[global] Instance result_bind : MBind result := fun A B f r =>
  match r with
  | Ok a => f a
  | Raise e => Raise e
  end.

#[global] Instance result_fmap : FMap result := fun A B f r =>
  match r with
  | Ok a => Ok (f a)
  | Raise e => Raise e
  end.

Definition is_ok {A} (r : result A) : bool :=
  match r with Ok _ => true | Raise _ => false end.

(** ** Dates and durations, after CPython's [datetime] module *)

Record datetime : Type := mk_datetime {
  year : Z; month : Z; day : Z;
  hour : Z; minute : Z; second : Z; microsecond : Z;
  (** [tzinfo]: [None] for a naive value, else the UTC offset in seconds *)
  utcoffset : option Z
}.

Record timedelta : Type := mk_timedelta {
  days : Z; seconds : Z; microseconds : Z
}.

Definition _is_leap (y : Z) : bool :=
  (y mod 4 =? 0) && (negb (y mod 100 =? 0) || (y mod 400 =? 0)).

Definition _days_before_year (y : Z) : Z :=
  let y := y - 1 in y * 365 + y / 4 - y / 100 + y / 400.

Definition _DAYS_IN_MONTH : list Z :=
  [31; 28; 31; 30; 31; 30; 31; 31; 30; 31; 30; 31].

Definition _days_before_month (y m : Z) : Z :=
  fold_right Z.add 0 (take (Z.to_nat (m - 1)) _DAYS_IN_MONTH)
  + (if (2 <? m) && _is_leap y then 1 else 0).

Definition _ymd2ord (y m d : Z) : Z :=
  _days_before_year y + _days_before_month y m + d.

Definition toordinal (d : datetime) : Z := _ymd2ord (year d) (month d) (day d).

(** [timedelta(days, seconds, microseconds)]: the constructor normalises to
    [0 <= seconds < 86400] and [0 <= microseconds < 10**6]. *)
Definition new_timedelta (d s us : Z) : timedelta :=
  let total := (d * 86400 + s) * 1000000 + us in
  let r := total mod 86400000000 in
  mk_timedelta (total / 86400000000) (r / 1000000) (r mod 1000000).

Definition timedelta_add (a b : timedelta) : timedelta :=
  new_timedelta (days a + days b) (seconds a + seconds b)
                (microseconds a + microseconds b).

(** A Python float is represented by the rational it stands for; the rounding
    of floating-point arithmetic is not modelled. *)
Definition total_seconds (t : timedelta) : Q :=
  ((days t * 86400 + seconds t) * 1000000 + microseconds t) # 1000000.

(** [datetime.__sub__] on two datetimes. *)
Definition datetime_sub_datetime (a b : datetime) : result timedelta :=
  let secs1 := second a + minute a * 60 + hour a * 3600 in
  let secs2 := second b + minute b * 60 + hour b * 3600 in
  let base := new_timedelta (toordinal a - toordinal b) (secs1 - secs2)
                            (microsecond a - microsecond b) in
  match utcoffset a, utcoffset b with
  | None, None => Ok base
  | Some myoff, Some otoff =>
      Ok (timedelta_add base (new_timedelta 0 (otoff - myoff) 0))
  | _, _ => Raise TypeError
  end.

Definition _EPOCH : datetime := mk_datetime 1970 1 1 0 0 0 0 (Some 0).

(** ** Python values

    The values a Firestore document can hold ([to_dict]), naive datetimes,
    and the sentinel [firestore.SERVER_TIMESTAMP] a write can carry. *)

Inductive pyval : Type :=
| PyNone
| PyBool (b : bool)
| PyInt (n : Z)
| PyFloat (x : Q)
| PyStr (s : string)
| PyDatetime (d : datetime)
| SERVER_TIMESTAMP
| PyList (l : list pyval)
| PyDict (d : list (string * pyval)).

(** A [dict] with string keys, in insertion order. *)
Abbreviation pydict := (list (string * pyval)).

Fixpoint dict_lookup (d : pydict) (k : string) : option pyval :=
  match d with
  | [] => None
  | (k', v) :: d' => if String.eqb k' k then Some v else dict_lookup d' k
  end.

(** [d.get(k, default)] *)
Definition dict_get (d : pydict) (k : string) (default : pyval) : pyval :=
  match dict_lookup d k with Some v => v | None => default end.

(** [d[k]] *)
Definition dict_getitem (d : pydict) (k : string) : result pyval :=
  match dict_lookup d k with Some v => Ok v | None => Raise (KeyError k) end.

(** [bool(v)], the test of [if v], [not v] and [v or w]. *)
Definition truthy (v : pyval) : bool :=
  match v with
  | PyNone => false
  | PyBool b => b
  | PyInt n => negb (n =? 0)
  | PyFloat x => negb (Qnum x =? 0)
  | PyStr s => negb (String.eqb s "")
  | PyDatetime _ => true
  | SERVER_TIMESTAMP => true
  | PyList l => match l with [] => false | _ => true end
  | PyDict d => match d with [] => false | _ => true end
  end.

(** [hasattr(v, 'timestamp')]: of the values above only datetimes (and the
    store's [DatetimeWithNanoseconds], a subclass) have the method. *)
Definition hasattr_timestamp (v : pyval) : bool :=
  match v with PyDatetime _ => true | _ => false end.

Section Clock.
(** UTC offset, in seconds, of the local time zone of the process. *)
Variable local_utcoffset : Z.

(** [datetime.timestamp()]: a float, the POSIX time in seconds. *)
Definition datetime_timestamp (d : datetime) : result Q :=
  match utcoffset d with
  | None =>
      let naive_epoch := mk_datetime 1970 1 1 0 0 0 0 None in
      t ← datetime_sub_datetime d naive_epoch;
      Ok (total_seconds t - inject_Z local_utcoffset)%Q
  | Some _ =>
      t ← datetime_sub_datetime d _EPOCH;
      Ok (total_seconds t)
  end.

(** [v.timestamp()] *)
Definition call_timestamp (v : pyval) : result pyval :=
  match v with
  | PyDatetime d => x ← datetime_timestamp d; Ok (PyFloat x)
  | _ => Raise AttributeError
  end.

(** [now - v] for a datetime [now]: [datetime.__sub__] answers for
    datetimes; for every other value of the model it
    returns [NotImplemented], the value has no [__rsub__] for a datetime,
    and the operator raises [TypeError]. *)
Definition datetime_sub (now : datetime) (v : pyval) : result timedelta :=
  match v with
  | PyDatetime d => datetime_sub_datetime now d
  | _ => Raise TypeError
  end.

(** *** [PodcastGenerator.should_generate_podcast] *)
Definition should_generate_podcast (now : datetime) (user_data : pydict)
  : result bool :=
  if negb (truthy (dict_get user_data "lastPodcast" PyNone)) then
    Ok true
  else
    last_podcast ← dict_getitem user_data "lastPodcast";
    last_podcast_date ←
      (if hasattr_timestamp last_podcast then call_timestamp last_podcast
       else Ok last_podcast);
    delta ← datetime_sub now last_podcast_date;
    let days_since_last := days delta in
    Ok (7 <=? days_since_last).
End Clock.

(** ** Audio buffers, after pydub's [AudioSegment]

    The operations follow the source of pydub 0.25 ([audio_segment.py],
    [effects.py]) and of [audioop].  Positions and durations of pydub are in
    milliseconds.  All segments of the model have one format: mono, 16-bit
    samples, 1000 frames per second, the rate at which a frame is a
    millisecond.  [_sync], by which [overlay] converts its operands to a
    common format, is then the identity, a frame is a sample, and
    [frame_count(ms)] is [ms].  Floats (gain factors) are represented by
    rationals. *)

Module pydub.

Record AudioSegment : Type := _spawn { _data : list Z }.

Definition frame_width : Z := 1.

(** [len(seg)], in milliseconds *)
Definition len (seg : AudioSegment) : Z := Z.of_nat (length (_data seg)).

(** [l[start:stop]] of Python, negative bounds counting from the end. *)
Definition py_bound (n i : Z) : Z :=
  if i <? 0 then Z.max 0 (i + n) else Z.min i n.

Definition py_slice {A} (l : list A) (start stop : Z) : list A :=
  let n := Z.of_nat (length l) in
  let a := py_bound n start in
  let b := py_bound n stop in
  take (Z.to_nat (b - a)) (drop (Z.to_nat a) l).

(** [l * n] of Python: empty for [n <= 0]. *)
Definition py_repeat {A} (l : list A) (n : Z) : list A :=
  concat (replicate (Z.to_nat n) l).

(** *** The sample arithmetic of [audioop], on 16-bit samples *)

Definition minval : Z := -32768.
Definition maxval : Z := 32767.
Definition fbound (v : Z) : Z := Z.max minval (Z.min maxval v).

Definition audioop_mul (fragment : list Z) (factor : Q) : list Z :=
  (fun s => fbound (Qfloor (inject_Z s * factor))) <$> fragment.

Definition audioop_add (f1 f2 : list Z) : result (list Z) :=
  if Nat.eqb (length f1) (length f2)
  then Ok (zip_with (fun a b => fbound (a + b)) f1 f2)
  else Raise (OtherError "audioop.error").

Definition audioop_max (fragment : list Z) : Z :=
  fold_right Z.max 0 (Z.abs <$> fragment).

(** [AudioSegment.silent(duration)] *)
Definition silent (duration : Z) : AudioSegment :=
  _spawn (py_repeat [0] duration).

(** *** [AudioSegment.__getitem__] *)

Definition _parse_position (seg : AudioSegment) (val : Z) : Z :=
  if val <? 0 then len seg - Z.abs val else val.

(** the common tail of [__getitem__], from the two positions on *)
Definition getitem_between (seg : AudioSegment) (start end_ : Z)
  : result AudioSegment :=
  let start := _parse_position seg start * frame_width in
  let end_ := _parse_position seg end_ * frame_width in
  let data := py_slice (_data seg) start end_ in
  let expected_length := end_ - start in
  let missing_frames :=
    (expected_length - Z.of_nat (length data)) / frame_width in
  if missing_frames =? 0 then Ok (_spawn data)
  else if 2 <? missing_frames then Raise (OtherError "TooManyMissingFrames")
  else
    let silence := audioop_mul (py_slice data 0 frame_width) 0 in
    Ok (_spawn (data ++ py_repeat silence missing_frames)).

(** [seg[start:stop]], a bound [None] being absent *)
Definition getitem_slice (seg : AudioSegment) (start stop : option Z)
  : result AudioSegment :=
  let start := default 0 start in
  let end_ := default (len seg) stop in
  getitem_between seg (Z.min start (len seg)) (Z.min end_ (len seg)).

(** [seg[millisecond]] *)
Definition getitem (seg : AudioSegment) (millisecond : Z)
  : result AudioSegment :=
  getitem_between seg millisecond (millisecond + 1).

(** [seg.get_frame(index)] *)
Definition get_frame (seg : AudioSegment) (index : Z) : list Z :=
  py_slice (_data seg) (index * frame_width) (index * frame_width + frame_width).

Section Gain.
(** [db_to_float(db) = 10 ** (db / 20)] and
    [ratio_to_db(ratio) = 20 * log10(ratio)] are not rational functions:
    they are parameters of the model. *)
Variable db_to_float : Q -> Q.
Variable ratio_to_db : Q -> Q.

(** [seg.apply_gain(volume_change)], and [seg - arg] *)
Definition apply_gain (seg : AudioSegment) (volume_change : Q)
  : AudioSegment :=
  _spawn (audioop_mul (_data seg) (db_to_float volume_change)).

Definition sub_gain (seg : AudioSegment) (arg : Q) : AudioSegment :=
  apply_gain seg (- arg)%Q.

Definition max_possible_amplitude : Q := (65536 / 2)%Q.

(** [pydub.effects.normalize(seg, headroom=0.1)] *)
Definition normalize (seg : AudioSegment) : AudioSegment :=
  let headroom : Q := (1 # 10)%Q in
  let peak_sample_val := audioop_max (_data seg) in
  if peak_sample_val =? 0 then seg
  else
    let target_peak := (max_possible_amplitude * db_to_float (- headroom)%Q)%Q in
    let needed_boost :=
      ratio_to_db (target_peak / inject_Z peak_sample_val)%Q in
    apply_gain seg needed_boost.

(** [seg.fade_out(duration)], which is
    [seg.fade(to_gain=-120, duration=duration, end=float('inf'))]. *)
Definition fade_out (seg : AudioSegment) (duration : Z)
  : result AudioSegment :=
  let to_gain : Q := (-120)%Q in
  let from_gain : Q := 0%Q in
  let end_ := len seg in
  if duration <? 0 then Raise (OtherError "InvalidDuration")
  else if duration =? 0 then Raise TypeError
  else
    let start := end_ - duration in
    let from_power := db_to_float from_gain in
    before_fade ← getitem_slice seg None (Some start);
    let gain_delta := (db_to_float to_gain - from_power)%Q in
    faded ←
      (if 100 <? duration then
         let scale_step := (gain_delta / inject_Z duration)%Q in
         mapM (fun i =>
                 let volume_change :=
                   (from_power + scale_step * inject_Z i)%Q in
                 chunk ← getitem seg (start + i);
                 Ok (audioop_mul (_data chunk) volume_change))
              (seqZ 0 duration)
       else
         let start_frame := start in
         let end_frame := end_ in
         let fade_frames := end_frame - start_frame in
         let scale_step := (gain_delta / inject_Z fade_frames)%Q in
         Ok ((fun i =>
                let volume_change :=
                  (from_power + scale_step * inject_Z i)%Q in
                audioop_mul (get_frame seg (start_frame + i)) volume_change)
             <$> seqZ 0 fade_frames));
    after_fade ← getitem_slice seg (Some end_) None;
    let after_fade := audioop_mul (_data after_fade) (db_to_float to_gain) in
    Ok (_spawn (_data before_fade ++ concat faded ++ after_fade)).

(** [seg1.overlay(seg2, position)], once through ([times = 1]) and
    without [gain_during_overlay] *)
Definition overlay (seg1 seg2 : AudioSegment) (position : Z)
  : result AudioSegment :=
  head_ ← getitem_slice seg1 None (Some position);
  rest ← getitem_slice seg1 (Some position) None;
  let seg1 := _data rest in
  let seg2 := _data seg2 in
  let pos := 0 in
  let seg1_len := Z.of_nat (length seg1) in
  let seg2_len := Z.of_nat (length seg2) in
  let remaining := Z.max 0 (seg1_len - pos) in
  let '(seg2, seg2_len) :=
    if remaining <=? seg2_len then (py_slice seg2 0 remaining, remaining)
    else (seg2, seg2_len) in
  mixed ← audioop_add (py_slice seg1 pos (pos + seg2_len)) seg2;
  let pos := pos + seg2_len in
  Ok (_spawn (_data head_ ++ mixed
              ++ py_slice seg1 pos (Z.of_nat (length seg1)))).
End Gain.
End pydub.

(** ** The texts of the Script Synthesizer *)

Definition dq : string := String (Ascii.ascii_of_nat 34) EmptyString.

Definition system_prompt : string :=
  "You are Kai Ryssdal, the host of NPR's Marketplace. You're creating a personalized 3-minute weekly podcast for a trading community member. Your style is conversational, engaging, and makes complex financial topics accessible.

Key characteristics of your voice:
- Conversational and approachable, like talking to a friend
- Uses analogies and everyday language to explain complex concepts
- Includes subtle humor and wit
- Makes data-driven points but keeps them accessible
- Ends with actionable insights or questions for reflection
- Uses phrases like " ++ dq ++ "Here's the thing," ++ dq ++ " " ++ dq ++ "Let me put this in perspective," ++ dq ++ " " ++ dq ++ "Here's what's really interesting" ++ dq ++ "

Format the script for audio delivery:
- Use natural speech patterns and pauses
- Include verbal cues like " ++ dq ++ "Well," ++ dq ++ " " ++ dq ++ "Now," ++ dq ++ " " ++ dq ++ "Here's where it gets interesting" ++ dq ++ "
- Keep sentences shorter for audio consumption
- Use emphasis and pacing cues in brackets like [pause] or [emphasis]
- Target length: 2-3 minutes when read aloud (approximately 400-600 words)

Structure:
1. Personal greeting and week overview
2. Market highlights with community context
3. Key insights or trends
4. Actionable takeaway or question for the week ahead
5. Sign-off with encouragement".

(** The four literal parts of the f-string [user_prompt], around its three
    replacement fields. *)
Definition user_prompt_0 : string :=
  "Create a personalized weekly podcast script for a community member with these preferences:

User Profile:
- Email: ".
Definition user_prompt_1 : string :=
  "
- Preferred content: ".
Definition user_prompt_2 : string :=
  "
- Last podcast: ".
Definition user_prompt_3 : string :=
  "

Market Context:
- Community size: 1,250 active members
- This week's performance: Strong tech sector gains
- Top performers: Alex Chen (12.5% return), Sarah Johnson (9.8% return)
- Trending stocks: AAPL, TSLA with strong community recommendations
- Fed decision: Rates held steady with dovish commentary

Make it feel personal and relevant to their trading journey. Include specific numbers and insights that would be valuable to someone actively trading and learning.".

(** [PodcastGenerator.get_fallback_script] *)
Definition get_fallback_script : string :=
  "Well, well, well... if you're listening to this, you've made it through another week in the markets, and let me tell you, what a week it's been. Welcome to your personalized Dekr Weekly podcast.

Here's the thing about this week - our community absolutely crushed it. We're talking about 1,250 smart people all looking at the same data and coming to remarkably similar conclusions. That's not luck, folks, that's collective intelligence in action.

Leading the charge this week is Alex Chen with a 12.5% return and 85.2% prediction accuracy. That's the kind of consistency that makes Wall Street take notice. Not to be outdone, Sarah Johnson delivered a solid 9.8% return with a 78.9% accuracy rate.

Here's where it gets interesting - the markets had themselves quite the week. The S&P 500 gained 2.3%, the NASDAQ popped 3.1%, and here's the kicker - our community saw it coming. I'm talking about 78% accuracy in the tech sector alone.

Apple and Tesla were the talk of the town this week, with 45 and 38 recommendations respectively. But here's what's really compelling - these weren't just blind recommendations. They came with data, with analysis, with actual reasoning behind them.

The Fed's latest move - holding rates steady with some surprisingly dovish commentary - sent ripples through the financial sector. But our community had already positioned themselves for exactly this scenario.

Here's what I want you to take away from this week's performance: we're not just building a trading community here, we're building a learning community. We're building a place where smart people can share ideas, test strategies, and yes, make money together.

The markets will do what the markets do - they'll go up, they'll go down, they'll make you question everything you thought you knew. But this community? This community is different. This community is thinking, learning, and adapting.

And that, my friends, is how you build wealth that lasts.

Until next week, keep your charts close and your stop-losses closer. This is your Dekr Weekly, and I'll see you on the trading floor.".

(** ** Rendering values as text *)

(** [json.dumps] raises [TypeError] on a value the default encoder does not
    know: of the values of the model, datetimes and the sentinel. *)
Fixpoint json_serializable (v : pyval) : bool :=
  match v with
  | PyNone | PyBool _ | PyInt _ | PyFloat _ | PyStr _ => true
  | PyDatetime _ | SERVER_TIMESTAMP => false
  | PyList l => forallb json_serializable l
  | PyDict d => forallb (fun kv => json_serializable (snd kv)) d
  end.

(** [s.zfill(width)] on the decimal numeral of a natural number *)
Definition zfill (width : nat) (n : Z) : string :=
  let s := pretty n in
  String.concat "" (replicate (width - String.length s)%nat "0") ++ s.

Definition month_names : list string :=
  ["January"; "February"; "March"; "April"; "May"; "June"; "July";
   "August"; "September"; "October"; "November"; "December"].

(** [d.strftime("%Y%m%d_%H%M%S")] *)
Definition strftime_compact (d : datetime) : string :=
  zfill 4 (year d) ++ zfill 2 (month d) ++ zfill 2 (day d) ++ "_"
  ++ zfill 2 (hour d) ++ zfill 2 (minute d) ++ zfill 2 (second d).

(** [d.strftime('%B %d, %Y')] *)
Definition strftime_long (d : datetime) : string :=
  default "" (month_names !! Z.to_nat (month d - 1))
  ++ " " ++ zfill 2 (day d) ++ ", " ++ zfill 4 (year d).

(** ** The world a run acts on, and its collaborators *)

Abbreviation bytes := (list Byte.byte).

Record World : Type := mk_world {
  (** Firestore collection [users]: document id to document *)
  users : gmap string pydict;
  (** Firestore collection [podcasts]: the Program Records, oldest first *)
  podcasts : list (string * pydict);
  (** the storage bucket: blob path to content and public flag *)
  bucket : gmap string (bytes * bool);
  (** the local file system: path to content *)
  files : gmap string bytes;
  (** the requests made to the speech backend: URL and text, oldest first *)
  posts : list (string * string)
}.

Definition set_users (f : gmap string pydict -> gmap string pydict) (w : World) :=
  mk_world (f (users w)) (podcasts w) (bucket w) (files w) (posts w).
Definition set_podcasts (f : list (string * pydict) -> list (string * pydict))
    (w : World) :=
  mk_world (users w) (f (podcasts w)) (bucket w) (files w) (posts w).
Definition set_bucket
    (f : gmap string (bytes * bool) -> gmap string (bytes * bool)) (w : World) :=
  mk_world (users w) (podcasts w) (f (bucket w)) (files w) (posts w).
Definition set_files (f : gmap string bytes -> gmap string bytes) (w : World) :=
  mk_world (users w) (podcasts w) (bucket w) (f (files w)) (posts w).
Definition set_posts (f : list (string * string) -> list (string * string))
    (w : World) :=
  mk_world (users w) (podcasts w) (bucket w) (files w) (f (posts w)).

(** What the collaborators answer.  Each oracle sees the world at the moment
    of the call, so its answer may depend on everything done before; an
    oracle of type [option exn] answers [None] when the call succeeds. *)
Record Env : Type := mk_env {
  (** [datetime.now()], a naive local time *)
  datetime_now : World -> datetime;
  local_utcoffset : Z;
  (** the time the document store writes for [SERVER_TIMESTAMP] *)
  server_time : World -> datetime;
  (** [str(v)] of a value that is not a string *)
  py_repr : pyval -> string;
  (** the text [json.dumps(v)] returns for a value it accepts *)
  json_text : pyval -> string;
  db_to_float : Q -> Q;
  ratio_to_db : Q -> Q;
  (** [openai_client.chat.completions.create]: the [message.content] of each
      choice of the response, or the exception raised *)
  chat_completions_create : World -> string -> string -> result (list (option string));
  (** [requests.post] followed by [raise_for_status]: the response body *)
  requests_post : World -> string -> string -> result bytes;
  (** [random._randbelow] *)
  randbelow : World -> nat -> nat;
  (** the name [tempfile.NamedTemporaryFile] picks *)
  temp_name : World -> string -> result string;
  (** the MP3 codec behind [AudioSegment.from_mp3] and [export] *)
  decode_mp3 : World -> bytes -> result pydub.AudioSegment;
  encode_mp3 : World -> pydub.AudioSegment -> result bytes;
  (** the storage bucket *)
  upload_from_string_error : World -> string -> option exn;
  make_public_error : World -> string -> option exn;
  public_url : string -> string;
  (** the document store *)
  document_get_error : World -> string -> option exn;
  collection_add_id : World -> pydict -> result string;
  document_update_error : World -> string -> option exn;
  collection_stream_error : World -> option exn
}.

(** ** The monad of the methods: a state of type [World], and exceptions.
    An exception keeps the effects done before it was raised. *)

Definition M (A : Type) : Type := World -> result A * World.

#[global] Instance M_ret : MRet M := fun A a w => (Ok a, w).
#[global] Instance M_bind : MBind M := fun A B f m w =>
  match m w with
  | (Ok a, w') => f a w'
  | (Raise e, w') => (Raise e, w')
  end.

Definition raise {A} (e : exn) : M A := fun w => (Raise e, w).
Definition lift {A} (r : result A) : M A := fun w => (r, w).
Definition ask {A} (oracle : World -> A) : M A := fun w => (Ok (oracle w), w).
Definition call {A} (oracle : World -> result A) : M A := fun w => (oracle w, w).
Definition modify (f : World -> World) : M unit := fun w => (Ok tt, f w).

(** a call that returns nothing, or raises *)
Definition attempt (oracle : World -> option exn) : M unit := fun w =>
  match oracle w with
  | None => (Ok tt, w)
  | Some e => (Raise e, w)
  end.

(** [try: body except Exception as e: handler] *)
Definition try_except {A} (body : M A) (handler : exn -> M A) : M A := fun w =>
  match body w with
  | (Ok a, w') => (Ok a, w')
  | (Raise e, w') => handler e w'
  end.

(** [for x in l: body], threading the accumulator [acc] *)
Fixpoint for_each {A B} (body : B -> A -> M B) (l : list A) (acc : B) : M B :=
  match l with
  | [] => mret acc
  | x :: l' => acc' ← body acc x; for_each body l' acc'
  end.

(** ** [class PodcastGenerator] *)

Section PodcastGenerator.
Variable env : Env.

Definition elevenlabs_base_url : string := "https://api.elevenlabs.io/v1".
Definition intro_stingers : list string :=
  ["Podcast Intro.mp3"; "Fashion Podcast Intro.mp3"].
Definition intro_dir : string := "/mnt/data".

(** *** Library calls *)

(** [str(v)], as an f-string field formats [v] *)
Definition py_str (v : pyval) : string :=
  match v with PyStr s => s | _ => py_repr env v end.

Definition json_dumps (v : pyval) : result string :=
  if json_serializable v then Ok (json_text env v) else Raise TypeError.

(** [l[i]] *)
Definition list_getitem {A} (l : list A) (i : nat) : result A :=
  match l !! i with Some x => Ok x | None => Raise IndexError end.

(** [random.choice(seq)] *)
Definition random_choice {A} (seq : list A) : M A := fun w =>
  match seq with
  | [] => (Raise IndexError, w)
  | _ => (list_getitem seq (randbelow env w (length seq) mod length seq)%nat, w)
  end.

(** [tempfile.NamedTemporaryFile(suffix=suffix, delete=False)]: the file
    exists, empty, from here on; leaving the [with] block closes it and,
    as [delete] is [False], does not remove it. *)
Definition NamedTemporaryFile (suffix : string) : M string :=
  name ← call (fun w => temp_name env w suffix);
  modify (set_files <[name := []]>);;
  mret name.

(** [f.write(data); f.flush()] *)
Definition file_write (name : string) (data : bytes) : M unit :=
  modify (set_files <[name := data]>).

(** [open(name, 'rb').read()] *)
Definition file_read (name : string) : M bytes := fun w =>
  match files w !! name with
  | Some data => (Ok data, w)
  | None => (Raise (OtherError "FileNotFoundError"), w)
  end.

(** [os.path.exists(path)] *)
Definition os_path_exists (path : string) : M bool :=
  ask (fun w => bool_decide (is_Some (files w !! path))).

(** [os.unlink(name)] *)
Definition os_unlink (name : string) : M unit := fun w =>
  match files w !! name with
  | Some _ => (Ok tt, set_files (delete name) w)
  | None => (Raise (OtherError "FileNotFoundError"), w)
  end.

(** [AudioSegment.from_mp3(path)] *)
Definition from_mp3 (path : string) : M pydub.AudioSegment :=
  data ← file_read path;
  call (fun w => decode_mp3 env w data).

(** [seg.export(path, format='mp3')] *)
Definition export (seg : pydub.AudioSegment) (path : string) : M unit :=
  data ← call (fun w => encode_mp3 env w seg);
  file_write path data.

(** [db.collection('users').doc(uid).get()]: the snapshot, [None] when the
    document does not exist.  The oracle stands for every exception the
    expression can raise, the lookup of the attribute [doc] on the
    collection object of the client library included. *)
Definition users_doc_get (uid : string) : M (option pydict) :=
  attempt (fun w => document_get_error env w uid);;
  ask (fun w => users w !! uid).

(** the store replaces the sentinel by its own time *)
Definition resolve_sentinel (w : World) (v : pyval) : pyval :=
  match v with
  | SERVER_TIMESTAMP => PyDatetime (server_time env w)
  | _ => v
  end.

(** [db.collection('podcasts').add(data)[1].id] *)
Definition podcasts_add (data : pydict) : M string :=
  id ← call (fun w => collection_add_id env w data);
  modify (fun w =>
    set_podcasts (fun l => (l ++ [(id, prod_map (fun k => k) (resolve_sentinel w) <$> data)])%list) w);;
  mret id.

(** [d.update(fields)] of a Python dict *)
Fixpoint dict_set (d : pydict) (k : string) (v : pyval) : pydict :=
  match d with
  | [] => [(k, v)]
  | (k', v') :: d' =>
      if String.eqb k' k then (k, v) :: d' else (k', v') :: dict_set d' k v
  end.

Definition dict_update (d fields : pydict) : pydict :=
  fold_left (fun d kv => dict_set d (fst kv) (snd kv)) fields d.

(** [db.collection('users').doc(uid).update(fields)] *)
Definition users_doc_update (uid : string) (fields : pydict) : M unit :=
  attempt (fun w => document_update_error env w uid);;
  ((fun w =>
      match users w !! uid with
      | Some doc =>
          let fields := prod_map (fun k => k) (resolve_sentinel w) <$> fields in
          (Ok tt, set_users <[uid := dict_update doc fields]> w)
      | None => (Raise (OtherError "NotFound"), w)
      end) : M unit).

(** [db.collection('users').stream()] *)
Definition users_stream : M (list (string * pydict)) :=
  attempt (collection_stream_error env);;
  ask (fun w => map_to_list (users w)).

(** *** [generate_podcast_script] *)

(** the f-string [user_prompt], evaluated before the [try] block *)
Definition user_prompt (user_preferences : pydict) : result string :=
  let email := py_str (dict_get user_preferences "email" (PyStr "Community Member")) in
  preferred ← json_dumps (dict_get user_preferences "podcastPreferences" (PyDict []));
  let last :=
    if truthy (dict_get user_preferences "lastPodcast" PyNone)
    then "Previous podcast available" else "First-time listener" in
  Ok (user_prompt_0 ++ email ++ user_prompt_1 ++ preferred
      ++ user_prompt_2 ++ last ++ user_prompt_3).

(** [x or y] on an optional string: [y] when [x] is [None] or empty *)
Definition or_else (x : option string) (y : string) : string :=
  match x with
  | Some text => if String.eqb text "" then y else text
  | None => y
  end.

Definition generate_podcast_script (user_preferences market_data : pydict)
  : M string :=
  user_prompt ← lift (user_prompt user_preferences);
  try_except
    (choices ← call (fun w => chat_completions_create env w system_prompt user_prompt);
     content ← lift (list_getitem choices 0);
     mret (or_else content get_fallback_script))
    (fun e => mret get_fallback_script).

(** *** [generate_voice] *)
Definition generate_voice (script : string) (voice_id : pyval) : M bytes :=
  let url := elevenlabs_base_url ++ "/text-to-speech/" ++ py_str voice_id in
  try_except
    (modify (set_posts (fun l => (l ++ [(url, script)])%list));;
     call (fun w => requests_post env w url script))
    (fun e => raise e).

(** *** [select_random_intro] and [load_intro_audio] *)
Definition select_random_intro : M string := random_choice intro_stingers.

Definition load_intro_audio (intro_filename : string) : M pydub.AudioSegment :=
  let intro_path := intro_dir ++ "/" ++ intro_filename in
  found ← os_path_exists intro_path;
  if negb found then mret (pydub.silent 3000)
  else from_mp3 intro_path.

(** *** [mix_audio] *)
Definition mix_audio (intro_audio voice_audio : pydub.AudioSegment)
  : result pydub.AudioSegment :=
  intro_faded ← pydub.fade_out (db_to_float env) intro_audio 3000;
  let voice_normalized :=
    pydub.normalize (db_to_float env) (ratio_to_db env) voice_audio in
  final_audio ← pydub.overlay intro_faded voice_normalized 0;
  let intro_volume_adjusted := pydub.sub_gain (db_to_float env) intro_faded 6 in
  final_audio ← pydub.overlay intro_volume_adjusted voice_normalized 0;
  Ok final_audio.

(** *** [upload_to_firebase_storage] *)
Definition upload_to_firebase_storage (uid : string) (audio_data : bytes)
  : M string :=
  now ← ask (datetime_now env);
  let timestamp := strftime_compact now in
  let filename := "podcast_" ++ timestamp ++ ".mp3" in
  let blob_path := "podcasts/" ++ uid ++ "/" ++ filename in
  try_except
    (attempt (fun w => upload_from_string_error env w blob_path);;
     modify (set_bucket <[blob_path := (audio_data, false)]>);;
     attempt (fun w => make_public_error env w blob_path);;
     modify (set_bucket <[blob_path := (audio_data, true)]>);;
     mret (public_url env blob_path))
    (fun e => raise e).

(** *** [generate_podcast]

    The body of the method is one [try] block of eleven numbered steps.
    It is written here in two parts, cut where the source starts to write
    to the document store: steps 1 to 8 end with the upload and leave the
    local variables the rest reads; steps 9 to 11 create the
    Program Record and update the User Record. *)
Definition default_voice_id : string := "vDchjyOZZytffNeZXfZK".

(** the local variables alive after step 8 *)
Record Uploaded : Type := mk_uploaded {
  voice_id : pyval;
  script : string;
  intro_filename : string;
  final_audio : pydub.AudioSegment;
  audio_url : string
}.

Definition generate_podcast_upload (uid : string) : M Uploaded :=
  (* 1. Get user data *)
  user_doc ← users_doc_get uid;
  match user_doc with
  | None => raise (ValueError ("User " ++ uid ++ " not found"))
  | Some user_data =>
    let voice_id := dict_get user_data "preferredVoiceId" (PyStr default_voice_id) in
    (* 2. Generate script *)
    script ← generate_podcast_script user_data [];
    (* 3. Generate voice *)
    voice_audio_data ← generate_voice script voice_id;
    (* 4. Load and process intro *)
    intro_filename ← select_random_intro;
    intro_audio ← load_intro_audio intro_filename;
    (* 5. Convert voice data to AudioSegment *)
    temp_voice ← NamedTemporaryFile ".mp3";
    file_write temp_voice voice_audio_data;;
    voice_audio ← from_mp3 temp_voice;
    os_unlink temp_voice;;
    (* 6. Mix audio *)
    final_audio ← lift (mix_audio intro_audio voice_audio);
    (* 7. Export final audio *)
    temp_final ← NamedTemporaryFile ".mp3";
    export final_audio temp_final;;
    final_audio_data ← file_read temp_final;
    os_unlink temp_final;;
    (* 8. Upload to Firebase Storage *)
    audio_url ← upload_to_firebase_storage uid final_audio_data;
    mret (mk_uploaded voice_id script intro_filename final_audio audio_url)
  end.

Definition generate_podcast_record (uid : string) (up : Uploaded) : M pydict :=
  (* 9. Create podcast document *)
  now ← ask (datetime_now env);
  let podcast_data : pydict :=
    [("userId", PyStr uid);
     ("title", PyStr ("Weekly Market Update - " ++ strftime_long now));
     ("script", PyStr (script up));
     ("audioUrl", PyStr (audio_url up));
     ("duration", PyFloat (pydub.len (final_audio up) # 1000));
     ("createdAt", SERVER_TIMESTAMP);
     ("voiceId", voice_id up);
     ("introStinger", PyStr (intro_filename up));
     ("status", PyStr "completed")] in
  (* 10. Save to Firestore *)
  podcast_id ← podcasts_add podcast_data;
  (* 11. Update user's last podcast info *)
  users_doc_update uid
    [("lastPodcast", SERVER_TIMESTAMP); ("lastPodcastUrl", PyStr (audio_url up))];;
  duration ← lift (dict_getitem podcast_data "duration");
  mret [("id", PyStr podcast_id);
        ("userId", PyStr uid);
        ("audioUrl", PyStr (audio_url up));
        ("duration", duration);
        ("status", PyStr "completed")].

Definition generate_podcast (uid : string) : M pydict :=
  try_except
    (up ← generate_podcast_upload uid;
     generate_podcast_record uid up)
    (fun e => raise e).

(** *** [run_weekly_job] *)
Record JobResults : Type := mk_results {
  generated : Z; skipped : Z; errors : Z
}.

(** the body of the loop, for one streamed document *)
Definition weekly_job_step (results : JobResults) (user_doc : string * pydict)
  : M JobResults :=
  let uid := user_doc.1 in
  let user_data := user_doc.2 in
  try_except
    (now ← ask (datetime_now env);
     due ← lift (should_generate_podcast (local_utcoffset env) now user_data);
     if due : bool then
       generate_podcast uid;;
       mret (mk_results (generated results + 1) (skipped results) (errors results))
     else
       mret (mk_results (generated results) (skipped results + 1) (errors results)))
    (fun e =>
       mret (mk_results (generated results) (skipped results) (errors results + 1))).

Definition run_weekly_job : M JobResults :=
  let results := mk_results 0 0 0 in
  try_except
    (users ← users_stream;
     results ← for_each weekly_job_step users results;
     mret results)
    (fun e => raise e).
End PodcastGenerator.

(** ** Service Boundary: the request handlers

    A handler returns a JSON body or raises [HTTPException]. *)

Inductive http_result : Type :=
| Returns (body : pydict)
| HTTPException (status_code : Z) (detail : string).

Section ServiceBoundary.
Variable env : Env.
(** [str(e)] for an exception whose message the model does not carry *)
Variable exn_text : exn -> string.

(** [str(e)]: the message, for an exception built with one *)
Definition str_exn (e : exn) : string :=
  match e with
  | ValueError msg => msg
  | _ => exn_text e
  end.

(** [POST /generate-podcast/{uid}] *)
Definition generate_podcast_endpoint (uid : string) (w : World)
  : http_result * World :=
  match generate_podcast env uid w with
  | (Ok result, w') =>
      (Returns [("success", PyBool true); ("data", PyDict result)], w')
  | (Raise e, w') => (HTTPException 500 (str_exn e), w')
  end.

(** [POST /run-weekly-job] *)
Definition run_weekly_job_endpoint (w : World) : http_result * World :=
  match run_weekly_job env w with
  | (Ok results, w') =>
      (Returns [("success", PyBool true);
                ("results", PyDict [("generated", PyInt (generated results));
                                    ("skipped", PyInt (skipped results));
                                    ("errors", PyInt (errors results))])], w')
  | (Raise e, w') => (HTTPException 500 (str_exn e), w')
  end.
End ServiceBoundary.

(** ** A concrete environment and world, for the examples

    The collaborators answer with fixed values; [fault] selects the one that
    fails. *)

Inductive fault : Type :=
| NoFault | ChatDown | VoiceDown | DecodeFails | EncodeFails
| UploadFails | AddFails | UpdateFails.

Definition demo_voice : pydub.AudioSegment :=
  pydub._spawn (replicate 5000%nat 1000).

Definition demo_env (f : fault) : Env := {|
  datetime_now := fun _ => mk_datetime 2024 3 15 12 0 0 0 None;
  local_utcoffset := 0;
  server_time := fun _ => mk_datetime 2024 3 15 12 0 0 0 (Some 0);
  py_repr := fun _ => "?";
  json_text := fun _ => "{}";
  db_to_float := fun db => if Qle_bool 0 db then 1%Q else (1 # 2)%Q;
  ratio_to_db := fun _ => 0%Q;
  chat_completions_create := fun _ _ _ =>
    match f with
    | ChatDown => Raise (OtherError "APIConnectionError")
    | _ => Ok [Some "Welcome to your Dekr Weekly."]
    end;
  requests_post := fun _ _ _ =>
    match f with
    | VoiceDown => Raise (OtherError "HTTPError")
    | _ => Ok [Byte.x49; Byte.x44; Byte.x33]
    end;
  randbelow := fun _ _ => 0%nat;
  temp_name := fun w suffix => Ok ("/tmp/tmp" ++ pretty (size (files w)) ++ suffix);
  decode_mp3 := fun _ _ =>
    match f with
    | DecodeFails => Raise (OtherError "CouldntDecodeError")
    | _ => Ok demo_voice
    end;
  encode_mp3 := fun _ _ =>
    match f with
    | EncodeFails => Raise (OtherError "CouldntEncodeError")
    | _ => Ok [Byte.xff; Byte.xfb]
    end;
  upload_from_string_error := fun _ _ =>
    match f with
    | UploadFails => Some (OtherError "ServiceUnavailable")
    | _ => None
    end;
  make_public_error := fun _ _ => None;
  public_url := fun path => "https://storage.googleapis.com/dekr-nextgen.appspot.com/" ++ path;
  document_get_error := fun _ _ => None;
  collection_add_id := fun w _ =>
    match f with
    | AddFails => Raise (OtherError "DeadlineExceeded")
    | _ => Ok ("podcast" ++ pretty (length (podcasts w)))
    end;
  document_update_error := fun _ _ =>
    match f with
    | UpdateFails => Some (OtherError "DeadlineExceeded")
    | _ => None
    end;
  collection_stream_error := fun _ => None
|}.

Definition demo_now : datetime := mk_datetime 2024 3 15 12 0 0 0 None.

Definition alice : pydict :=
  [("email", PyStr "alice@example.com");
   ("podcastPreferences", PyDict [("includeMarketAnalysis", PyBool true);
                                  ("preferredLength", PyStr "medium")]);
   ("lastPodcast", PyNone)].

Definition bob : pydict :=
  [("email", PyStr "bob@example.com");
   ("preferredVoiceId", PyStr "pNInz6obpgDQGcFmaJgB");
   ("lastPodcast", PyDatetime (mk_datetime 2024 3 7 12 0 0 0 (Some 0)))].

Definition demo_world : World := {|
  users := {[ "alice" := alice; "bob" := bob ]};
  podcasts := [];
  bucket := ∅;
  files := ∅;
  posts := []
|}.

(** the example environment, with a bucket that refuses [make_public] *)
Definition private_env : Env :=
  let env := demo_env NoFault in
  {|
    datetime_now := datetime_now env;
    local_utcoffset := local_utcoffset env;
    server_time := server_time env;
    py_repr := py_repr env;
    json_text := json_text env;
    db_to_float := db_to_float env;
    ratio_to_db := ratio_to_db env;
    chat_completions_create := chat_completions_create env;
    requests_post := requests_post env;
    randbelow := randbelow env;
    temp_name := temp_name env;
    decode_mp3 := decode_mp3 env;
    encode_mp3 := encode_mp3 env;
    upload_from_string_error := upload_from_string_error env;
    make_public_error := fun _ _ => Some (OtherError "Forbidden");
    public_url := public_url env;
    document_get_error := document_get_error env;
    collection_add_id := collection_add_id env;
    document_update_error := document_update_error env;
    collection_stream_error := collection_stream_error env
  |}.

(** ** Definitions used by the statements below *)

(** the number of users a result accounts for *)
Definition total (r : JobResults) : Z := generated r + skipped r + errors r.

(** [audioop.add] on one pair of samples: the sum, kept within the range
    of a 16-bit sample *)
Definition add_sample (a b : Z) : Z := pydub.fbound (a + b).

(** The overlay of section 4.4 of the specification and of its glossary, in
    their words: the two signals are summed from position zero on, and the
    result is as long as the longer of the two, so that past the end of the
    shorter buffer the longer one plays on alone.  This is not
    [pydub.overlay], whose result is as long as the buffer it is called on. *)
Definition overlay_canonical (base voice : pydub.AudioSegment)
  : pydub.AudioSegment :=
  let a := pydub._data base in
  let b := pydub._data voice in
  pydub._spawn (zip_with add_sample a b
                ++ drop (length b) a ++ drop (length a) b).

(** The sequence of section 4.4 of the specification, in its words: fade the
    intro out over 3 seconds, normalize the voice, attenuate the faded intro
    by 6 dB, overlay the normalized voice onto the attenuated intro at
    position zero, in a buffer as long as the longer of the two. *)
Definition mix_audio_canonical (env : Env)
    (intro_audio voice_audio : pydub.AudioSegment) : result pydub.AudioSegment :=
  faded ← pydub.fade_out (db_to_float env) intro_audio 3000;
  let normalized := pydub.normalize (db_to_float env) (ratio_to_db env) voice_audio in
  let attenuated := pydub.apply_gain (db_to_float env) faded (-6) in
  Ok (overlay_canonical attenuated normalized).

(** the URL of the speech backend for the default voice *)
Definition default_voice_url : string :=
  elevenlabs_base_url ++ "/text-to-speech/" ++ default_voice_id.

(** [frames f m]: the computation [m] leaves the part [f] of the world as it
    found it, whether it returns or raises.  [ensures P m]: when [m]
    returns, [P] holds of the value and of the world it leaves. *)
Definition frames {A B} (f : World -> B) (m : M A) : Prop :=
  forall w, f (m w).2 = f w.

Definition ensures {A} (P : A -> World -> Prop) (m : M A) : Prop :=
  forall w a w', m w = (Ok a, w') -> P a w'.

(** the URL of the speech backend for a voice *)
Definition voice_url (env : Env) (voice_id : pyval) : string :=
  elevenlabs_base_url ++ "/text-to-speech/" ++ py_str env voice_id.

(** the name of the blob of a user for an upload at [now] *)
Definition blob_path (uid : string) (now : datetime) : string :=
  "podcasts/" ++ uid ++ "/" ++ ("podcast_" ++ strftime_compact now ++ ".mp3").

(** the Program Record as the store holds it *)
Definition stored_record (uid : string) (up : Uploaded) (now created : datetime)
    (voice : pyval) : pydict :=
  [("userId", PyStr uid);
   ("title", PyStr ("Weekly Market Update - " ++ strftime_long now));
   ("script", PyStr (script up));
   ("audioUrl", PyStr (audio_url up));
   ("duration", PyFloat (pydub.len (final_audio up) # 1000));
   ("createdAt", PyDatetime created);
   ("voiceId", voice);
   ("introStinger", PyStr (intro_filename up));
   ("status", PyStr "completed")].

(** the fields of a user record other than the two last-generation ones *)
Definition same_profile (d d' : pydict) : Prop :=
  forall k, k <> "lastPodcast" -> k <> "lastPodcastUrl" ->
            dict_lookup d' k = dict_lookup d k.

(** no user added or removed, no field changed but the last-generation ones *)
Definition users_kept (w w' : World) : Prop :=
  forall uid, option_Forall2 same_profile (users w !! uid) (users w' !! uid).

(** the Program Records there were are still there, unchanged, in place *)
Definition records_kept (w w' : World) : Prop :=
  podcasts w `prefix_of` podcasts w'.

(** both, of the document store *)
Definition store_kept (w w' : World) : Prop :=
  records_kept w w' /\ users_kept w w'.

(** a user without a last-generation value, in the streamed document *)
Definition first_time (user_doc : string * pydict) : bool :=
  negb (truthy (dict_get user_doc.2 "lastPodcast" PyNone)).

(** * Properties *)

(** ** Eligibility Checker *)

Lemma call_timestamp_float off d :
  exists x, call_timestamp off (PyDatetime d) = Ok (PyFloat x).
Proof.
  unfold call_timestamp, datetime_timestamp, datetime_sub_datetime.
  destruct (utcoffset d) as [o|] eqn:Ho; simpl; eauto.
Qed.

(** The method returns in one case only: when the value is absent or falsy.
    On every other value it raises [TypeError]: a datetime has [timestamp],
    which returns a float, and [now - x] is defined for no float, number,
    string, list or dict [x]. *)
Lemma should_generate_podcast_cases off now user_data :
  should_generate_podcast off now user_data =
  if truthy (dict_get user_data "lastPodcast" PyNone)
  then Raise TypeError else Ok true.
Proof.
  unfold should_generate_podcast, dict_get, dict_getitem.
  destruct (dict_lookup user_data "lastPodcast") as [v|] eqn:Hv; [|reflexivity].
  destruct (truthy v) eqn:Ht; [|reflexivity].
  cbn [negb mbind result_bind].
  destruct v; try discriminate Ht; try reflexivity.
  destruct (call_timestamp_float off d) as [x Hx].
  cbn [hasattr_timestamp]. rewrite Hx. reflexivity.
Qed.

(** C2, at the inputs of the specification's example.  With a
    last-generation value exactly 7 days before now the whole-day difference
    is 7 and the claim asks for "eligible"; the method raises [TypeError]
    instead, for a naive datetime and for a timestamp of the store (UTC)
    alike, as it does 6 days before now, where the claim asks for "not
    eligible".  Only the absent value is answered. *)
Theorem eligibility_seven_days_raises :
  let user (last : datetime) : pydict := [("lastPodcast", PyDatetime last)] in
  let seven_days_ago := mk_datetime 2024 3 8 12 0 0 0 in
  let six_days_ago := mk_datetime 2024 3 9 12 0 0 0 in
  days <$> datetime_sub_datetime demo_now (seven_days_ago None) = Ok 7
  /\ should_generate_podcast 0 demo_now (user (seven_days_ago None)) = Raise TypeError
  /\ should_generate_podcast 0 demo_now (user (seven_days_ago (Some 0))) = Raise TypeError
  /\ should_generate_podcast 0 demo_now (user (six_days_ago (Some 0))) = Raise TypeError
  /\ should_generate_podcast 0 demo_now [] = Ok true.
Proof. repeat split; vm_compute; reflexivity. Qed.

(** C3: the method returns exactly when the last-generation value is absent
    or falsy, and raises on every other value: on a timestamp-like object as
    on a raw number. *)
Theorem eligibility_check_raises off now user_data :
  is_ok (should_generate_podcast off now user_data)
  = negb (truthy (dict_get user_data "lastPodcast" PyNone))
  /\ should_generate_podcast off now [("lastPodcast", PyInt 1710504000)]
     = Raise TypeError.
Proof.
  split; [|reflexivity].
  rewrite should_generate_podcast_cases.
  destruct (truthy _); reflexivity.
Qed.

(** ** Script Synthesizer *)

Lemma get_fallback_script_nonempty : get_fallback_script <> "".
Proof. unfold get_fallback_script. discriminate. Qed.

Lemma or_else_nonempty x y : y <> "" -> or_else x y <> "".
Proof.
  intros Hy. destruct x as [text|]; simpl; [|exact Hy].
  destruct (String.eqb text "") eqn:E; [exact Hy|].
  apply String.eqb_neq; exact E.
Qed.

(** C4: the method raises where the claim says it never does.  The prompt
    is built one statement before the [try] block whose handler returns the
    fallback script, and [json.dumps] raises [TypeError] on preferences that
    hold a timestamp: the exception leaves the method, the backend is not
    called and the fallback script is not returned. *)
Lemma generate_podcast_script_can_raise :
  let user_preferences : pydict :=
    [("email", PyStr "carol@example.com");
     ("podcastPreferences",
      PyDict [("preferredLength", PyStr "medium");
              ("updatedAt", PyDatetime (mk_datetime 2024 3 1 9 30 0 0 (Some 0)))])] in
  generate_podcast_script (demo_env NoFault) user_preferences [] demo_world
  = (Raise TypeError, demo_world).
Proof. reflexivity. Qed.

(** What the [try] block does achieve: when the preferences of the record
    are JSON-serialisable, so that the prompt is built, the method does not
    raise, leaves the world as it is and never returns the empty string: it
    returns the text of the first choice when the backend answers with one
    that is not empty, and the fallback script when the backend raises,
    answers with no choice, or with an absent or empty text. *)
Theorem generate_podcast_script_never_empty env user_preferences market_data w :
  json_serializable (dict_get user_preferences "podcastPreferences" (PyDict [])) = true ->
  exists prompt text,
    user_prompt env user_preferences = Ok prompt
    /\ generate_podcast_script env user_preferences market_data w = (Ok text, w)
    /\ text <> ""
    /\ match chat_completions_create env w system_prompt prompt with
       | Ok (Some answer :: _) =>
           text = if String.eqb answer "" then get_fallback_script else answer
       | Ok (None :: _) | Ok [] | Raise _ => text = get_fallback_script
       end.
Proof.
  intros Hjson.
  unfold generate_podcast_script, user_prompt, json_dumps.
  rewrite Hjson. cbn [mbind result_bind M_bind lift].
  eexists. 
  unfold try_except, call, lift, mret, M_ret, mbind, M_bind, list_getitem.
  destruct (chat_completions_create env w system_prompt _) as [[|content rest]|e] eqn:Hchat.
  - eexists. repeat split; [apply get_fallback_script_nonempty|].
    rewrite Hchat. reflexivity.
  - eexists. cbn. repeat split;
      [apply or_else_nonempty, get_fallback_script_nonempty|].
    rewrite Hchat. destruct content; reflexivity.
  - eexists. repeat split; [apply get_fallback_script_nonempty|].
    rewrite Hchat. reflexivity.
Qed.

Lemma generate_podcast_script_never_empty_witness :
  exists prompt text,
    user_prompt (demo_env ChatDown) alice = Ok prompt
    /\ generate_podcast_script (demo_env ChatDown) alice [] demo_world
       = (Ok text, demo_world)
    /\ text <> ""
    /\ text = get_fallback_script.
Proof.
  destruct (generate_podcast_script_never_empty (demo_env ChatDown) alice []
              demo_world eq_refl) as (prompt & text & H1 & H2 & H3 & H4).
  exists prompt, text. repeat split; assumption.
Defined.

(** ** Batch Runner *)


(** The body of the loop never raises, and adds one to exactly one counter. *)
Lemma weekly_job_step_counts env results user_doc w :
  exists results' w',
    weekly_job_step env results user_doc w = (Ok results', w')
    /\ (results' = mk_results (generated results + 1) (skipped results) (errors results)
        \/ results' = mk_results (generated results) (skipped results + 1) (errors results)
        \/ results' = mk_results (generated results) (skipped results) (errors results + 1)).
Proof.
  unfold weekly_job_step, try_except, ask, lift, mret, M_ret, mbind, M_bind.
  destruct (should_generate_podcast _ _ _) as [[|]|e].
  - destruct (generate_podcast env user_doc.1 w) as [[summary|e] w'];
      eexists _, _; split; eauto.
  - eexists _, _; split; eauto.
  - eexists _, _; split; eauto.
Qed.

Lemma weekly_job_step_total env results user_doc w :
  exists results' w',
    weekly_job_step env results user_doc w = (Ok results', w')
    /\ total results' = total results + 1.
Proof.
  destruct (weekly_job_step_counts env results user_doc w)
    as (results' & w' & Hstep & [-> | [-> | ->]]);
    eexists _, w'; (split; [exact Hstep | unfold total; simpl; lia]).
Qed.

(** The loop visits every document: an exception of one user is counted and
    the iteration goes on. *)
Lemma for_each_weekly_job_step env user_docs : forall results w,
  exists results' w',
    for_each (weekly_job_step env) user_docs results w = (Ok results', w')
    /\ total results' = total results + Z.of_nat (length user_docs).
Proof.
  induction user_docs as [|user_doc user_docs IH]; intros results w.
  - exists results, w. split; [reflexivity | simpl; lia].
  - destruct (weekly_job_step_total env results user_doc w)
      as (results1 & w1 & Hstep & Htotal).
    destruct (IH results1 w1) as (results' & w' & Hrest & Htotal').
    exists results', w'. split.
    + cbn [for_each]. unfold mbind, M_bind. rewrite Hstep. exact Hrest.
    + rewrite Htotal', Htotal. rewrite length_cons. lia.
Qed.


(** The job on the two users of the example world: [alice], who has no
    last-generation value, gets a podcast; [bob], whose value is a timestamp
    8 days old, is counted as an error, the eligibility check having
    raised. *)
Example run_weekly_job_demo :
  (run_weekly_job (demo_env NoFault) demo_world).1 = Ok (mk_results 1 0 1).
Proof. vm_compute. reflexivity. Qed.

(** ** Audio Mixer *)

Module pydub_facts.
Import pydub.

Lemma length_py_slice {A} (l : list A) (a b : Z) :
  0 <= a -> a <= b -> b <= Z.of_nat (length l) ->
  Z.of_nat (length (py_slice l a b)) = b - a.
Proof.
  intros Ha Hab Hb. unfold py_slice, py_bound.
  destruct (a <? 0) eqn:Ea; [apply Z.ltb_lt in Ea; lia|].
  destruct (b <? 0) eqn:Eb; [apply Z.ltb_lt in Eb; lia|].
  rewrite length_take, length_drop. lia.
Qed.

Lemma py_slice_all {A} (l : list A) :
  py_slice l 0 (Z.of_nat (length l)) = l.
Proof.
  unfold py_slice, py_bound.
  destruct (Z.of_nat (length l) <? 0) eqn:E; [apply Z.ltb_lt in E; lia|].
  cbn [Z.ltb Z.compare]. rewrite Z.min_id.
  replace (Z.min 0 (Z.of_nat (length l))) with 0 by lia.
  cbn [Z.to_nat drop]. apply take_ge. lia.
Qed.

(** a slice within the bounds is what [__getitem__] returns: no frame is
    missing *)
Lemma getitem_between_inside seg (a b : Z) :
  0 <= a -> a <= b -> b <= len seg ->
  getitem_between seg a b = Ok (_spawn (py_slice (_data seg) a b)).
Proof.
  intros Ha Hab Hb. unfold getitem_between, _parse_position, frame_width.
  destruct (a <? 0) eqn:Ea; [apply Z.ltb_lt in Ea; lia|].
  destruct (b <? 0) eqn:Eb; [apply Z.ltb_lt in Eb; lia|].
  rewrite !Z.mul_1_r, Z.div_1_r.
  rewrite (length_py_slice (_data seg) a b Ha Hab Hb).
  rewrite Z.sub_diag. reflexivity.
Qed.

Lemma getitem_slice_to seg (stop : Z) :
  0 <= stop <= len seg ->
  getitem_slice seg None (Some stop) = Ok (_spawn (py_slice (_data seg) 0 stop)).
Proof.
  intros H. unfold getitem_slice. cbn [default from_option id].
  replace (Z.min 0 (len seg)) with 0 by lia.
  replace (Z.min stop (len seg)) with stop by lia.
  apply getitem_between_inside; lia.
Qed.

Lemma getitem_slice_from seg (start : Z) :
  0 <= start <= len seg ->
  getitem_slice seg (Some start) None
  = Ok (_spawn (py_slice (_data seg) start (len seg))).
Proof.
  intros H. unfold getitem_slice. cbn [default from_option id].
  replace (Z.min start (len seg)) with start by lia.
  rewrite Z.min_id.
  apply getitem_between_inside; lia.
Qed.

Lemma len_nonneg seg : 0 <= len seg.
Proof. unfold len. lia. Qed.

(** [overlay] at position 0 never raises, and its result is as long as the
    segment it is called on: the overlaid segment is cut to it. *)
Lemma overlay_len seg1 seg2 :
  exists mixed, overlay seg1 seg2 0 = Ok mixed /\ len mixed = len seg1.
Proof.
  pose proof (len_nonneg seg1) as H1.
  unfold overlay.
  rewrite getitem_slice_to, getitem_slice_from by lia.
  cbn [mbind result_bind _data]. cbv zeta.
  unfold len in *. rewrite !py_slice_all.
  set (n1 := Z.of_nat (length (_data seg1))) in *.
  set (n2 := Z.of_nat (length (_data seg2))).
  replace (Z.max 0 (n1 - 0)) with n1 by (unfold n1; lia).
  assert (Hadd : forall f1 f2 : list Z,
             length f1 = length f2 ->
             exists m, audioop_add f1 f2 = Ok m /\ length m = length f1).
  { intros f1 f2 Hlen. unfold audioop_add.
    rewrite (proj2 (Nat.eqb_eq _ _) Hlen).
    eexists; split; [reflexivity|].
    rewrite length_zip_with. lia. }
  destruct (n1 <=? n2) eqn:E.
  - apply Z.leb_le in E.
    destruct (Hadd (py_slice (_data seg1) 0 (0 + n1)) (py_slice (_data seg2) 0 n1))
      as (m & Hm & Hlen).
    { apply Nat2Z.inj. rewrite !length_py_slice; unfold n1, n2 in *; lia. }
    rewrite Hm. cbn [mbind result_bind].
    eexists; split; [reflexivity|].
    cbn [_data]. rewrite !length_app, Hlen.
    rewrite !Nat2Z.inj_add, !length_py_slice; unfold n1 in *; lia.
  - apply Z.leb_gt in E.
    destruct (Hadd (py_slice (_data seg1) 0 (0 + n2)) (_data seg2))
      as (m & Hm & Hlen).
    { apply Nat2Z.inj. rewrite !length_py_slice; unfold n1, n2 in *; lia. }
    rewrite Hm. cbn [mbind result_bind].
    eexists; split; [reflexivity|].
    cbn [_data]. rewrite !length_app, Hlen.
    rewrite !Nat2Z.inj_add, !length_py_slice; unfold n1, n2 in *; lia.
Qed.

Lemma apply_gain_len db_to_float seg volume_change :
  len (apply_gain db_to_float seg volume_change) = len seg.
Proof. unfold apply_gain, audioop_mul, len. cbn [_data]. by rewrite length_fmap. Qed.

Lemma sub_gain_len db_to_float seg arg :
  len (sub_gain db_to_float seg arg) = len seg.
Proof. apply apply_gain_len. Qed.

Lemma mapM_chunks {A} (f : A -> result (list Z)) (l : list A) :
  (forall x, x ∈ l -> exists y, f x = Ok y /\ length y = 1%nat) ->
  exists ys, mapM f l = Ok ys /\ length (concat ys) = length l.
Proof.
  induction l as [|x l IH]; intros Hf.
  - exists []. split; reflexivity.
  - destruct (Hf x) as (y & Hy & Hlen); [left|].
    destruct IH as (ys & Hys & Hlens).
    { intros x' Hx'. apply Hf. by right. }
    exists (y :: ys). split.
    + cbn [mapM]. rewrite Hy. cbn [mbind result_bind]. rewrite Hys. reflexivity.
    + cbn [concat]. rewrite length_app, Hlen, Hlens. reflexivity.
Qed.

(** A fade-out no longer than the segment keeps its length. *)
Lemma fade_out_len db_to_float seg duration :
  100 < duration <= len seg ->
  exists faded,
    fade_out db_to_float seg duration = Ok faded /\ len faded = len seg.
Proof.
  intros Hd. unfold fade_out.
  destruct (duration <? 0) eqn:E1; [apply Z.ltb_lt in E1; lia|].
  destruct (duration =? 0) eqn:E2; [apply Z.eqb_eq in E2; lia|].
  destruct (100 <? duration) eqn:E3; [|apply Z.ltb_ge in E3; lia].
  cbv zeta.
  rewrite getitem_slice_to, getitem_slice_from by lia.
  cbn [mbind result_bind _data].
  match goal with |- context [mapM ?f ?l] =>
    destruct (mapM_chunks f l) as (chunks & Hchunks & Hlen)
  end.
  { intros i Hi. apply elem_of_seqZ in Hi.
    unfold getitem. rewrite getitem_between_inside by lia.
    cbn [mbind result_bind _data]. eexists; split; [reflexivity|].
    unfold audioop_mul. rewrite length_fmap.
    apply Nat2Z.inj. rewrite length_py_slice by (unfold len in *; lia). lia. }
  rewrite Hchunks. cbn [mbind result_bind].
  eexists; split; [reflexivity|].
  unfold len, audioop_mul. cbn [_data].
  rewrite !length_app, length_fmap, Hlen, length_seqZ.
  rewrite !Nat2Z.inj_add, !length_py_slice; unfold len in *; lia.
Qed.
End pydub_facts.

(** The mixed buffer is as long as the faded intro, whatever the voice. *)
Lemma mix_audio_len env intro_audio voice_audio faded :
  pydub.fade_out (db_to_float env) intro_audio 3000 = Ok faded ->
  exists mixed,
    mix_audio env intro_audio voice_audio = Ok mixed
    /\ pydub.len mixed = pydub.len faded.
Proof.
  intros Hfade. unfold mix_audio. rewrite Hfade. cbn [mbind result_bind].
  destruct (pydub_facts.overlay_len faded
              (pydub.normalize (db_to_float env) (ratio_to_db env) voice_audio))
    as (first & Hfirst & _).
  rewrite Hfirst. cbn [mbind result_bind].
  destruct (pydub_facts.overlay_len (pydub.sub_gain (db_to_float env) faded 6)
              (pydub.normalize (db_to_float env) (ratio_to_db env) voice_audio))
    as (mixed & Hmixed & Hlen).
  rewrite Hmixed. cbn [mbind result_bind].
  exists mixed. split; [reflexivity|].
  rewrite Hlen. apply pydub_facts.sub_gain_len.
Qed.

(** C1: what the method returns instead.  For an intro of 3 seconds or more
    the mixed buffer has the length of the intro, not of the longer input:
    [overlay] is called on the intro, and cuts the voice to it. *)
Theorem mix_audio_truncates_to_intro env intro_audio voice_audio :
  3000 <= pydub.len intro_audio ->
  exists mixed,
    mix_audio env intro_audio voice_audio = Ok mixed
    /\ pydub.len mixed = pydub.len intro_audio.
Proof.
  intros Hlen.
  destruct (pydub_facts.fade_out_len (db_to_float env) intro_audio 3000)
    as (faded & Hfade & Hfaded); [lia|].
  destruct (mix_audio_len env intro_audio voice_audio faded Hfade)
    as (mixed & Hmix & Hmixed).
  exists mixed. split; [exact Hmix | congruence].
Qed.

(** The failing input: the 3 seconds of silence that stand for a missing
    intro file, and a voice of 5 seconds.  The result lasts 3 seconds. *)
Lemma mix_audio_truncates_to_intro_witness :
  pydub.len demo_voice = 5000
  /\ exists mixed,
       mix_audio (demo_env NoFault) (pydub.silent 3000) demo_voice = Ok mixed
       /\ pydub.len mixed = 3000.
Proof.
  split; [vm_compute; reflexivity|].
  assert (Hintro : pydub.len (pydub.silent 3000) = 3000) by (vm_compute; reflexivity).
  destruct (mix_audio_truncates_to_intro (demo_env NoFault) (pydub.silent 3000)
              demo_voice) as (mixed & Hmix & Hlen).
  - rewrite Hintro. lia.
  - exists mixed. split; [exact Hmix | congruence].
Defined.


(** The first [overlay] of the method, whose result is overwritten, changes
    nothing: it does not mutate its operands and, at position 0, does not
    raise.  The method is one fade, one normalize, one attenuation and one
    [pydub.overlay]. *)
Lemma mix_audio_single_overlay env intro_audio voice_audio :
  mix_audio env intro_audio voice_audio
  = (faded ← pydub.fade_out (db_to_float env) intro_audio 3000;
     pydub.overlay (pydub.apply_gain (db_to_float env) faded (-6))
       (pydub.normalize (db_to_float env) (ratio_to_db env) voice_audio) 0).
Proof.
  unfold mix_audio.
  destruct (pydub.fade_out (db_to_float env) intro_audio 3000) as [faded|e];
    [|reflexivity].
  cbn [mbind result_bind].
  destruct (pydub_facts.overlay_len faded
              (pydub.normalize (db_to_float env) (ratio_to_db env) voice_audio))
    as (first & Hfirst & _).
  rewrite Hfirst. clear Hfirst. cbn [mbind result_bind].
  change (pydub.sub_gain (db_to_float env) faded 6)
    with (pydub.apply_gain (db_to_float env) faded (-6)).
  destruct (pydub.overlay _ _ 0); reflexivity.
Qed.

(** ** Reasoning about the methods *)



Section Frames.
Context {B : Type} (f : World -> B).

Lemma frames_ret {A} (a : A) : frames f (mret a).
Proof. intros w. reflexivity. Qed.

Lemma frames_raise {A} e : frames f (raise (A:=A) e).
Proof. intros w. reflexivity. Qed.

Lemma frames_lift {A} (r : result A) : frames f (lift r).
Proof. intros w. reflexivity. Qed.

Lemma frames_ask {A} (oracle : World -> A) : frames f (ask oracle).
Proof. intros w. reflexivity. Qed.

Lemma frames_call {A} (oracle : World -> result A) : frames f (call oracle).
Proof. intros w. reflexivity. Qed.

Lemma frames_attempt oracle : frames f (attempt oracle).
Proof. intros w. unfold attempt. destruct (oracle w); reflexivity. Qed.

Lemma frames_modify g : (forall w, f (g w) = f w) -> frames f (modify g).
Proof. intros H w. apply H. Qed.

Lemma frames_bind {A C} (m : M A) (k : A -> M C) :
  frames f m -> (forall a, frames f (k a)) -> frames f (m ≫= k).
Proof.
  intros Hm Hk w. unfold mbind, M_bind.
  specialize (Hm w). destruct (m w) as [[a|e] w1]; cbn [snd] in *.
  - rewrite Hk. exact Hm.
  - exact Hm.
Qed.

Lemma frames_try_except {A} (body : M A) handler :
  frames f body -> (forall e, frames f (handler e)) ->
  frames f (try_except body handler).
Proof.
  intros Hm Hk w. unfold try_except.
  specialize (Hm w). destruct (body w) as [[a|e] w1]; cbn [snd] in *.
  - exact Hm.
  - rewrite Hk. exact Hm.
Qed.

Lemma frames_for_each {A C} (body : C -> A -> M C) l :
  (forall acc x, frames f (body acc x)) ->
  forall acc, frames f (for_each body l acc).
Proof.
  intros Hbody. induction l as [|x l IH]; intros acc; cbn [for_each].
  - apply frames_ret.
  - apply frames_bind; [apply Hbody | apply IH].
Qed.
End Frames.

Section Ensures.
Context {A : Type} (P : A -> World -> Prop).

Lemma ensures_ret (a : A) : (forall w, P a w) -> ensures P (mret a).
Proof. intros H w a' w' [= <- <-]. apply H. Qed.

Lemma ensures_raise e : ensures P (raise e).
Proof. intros w a w' [=]. Qed.

Lemma ensures_bind {C} (m : M C) (k : C -> M A) :
  (forall c, ensures P (k c)) -> ensures P (m ≫= k).
Proof.
  intros Hk w a w'. unfold mbind, M_bind.
  destruct (m w) as [[c|e] w1]; [apply Hk | intros [=]].
Qed.

Lemma ensures_try_reraise (body : M A) :
  ensures P body -> ensures P (try_except body (fun e => raise e)).
Proof.
  intros Hm w a w'. unfold try_except, raise.
  destruct (body w) as [[c|e] w1] eqn:E; [|intros [=]].
  intros [= <- <-]. eapply Hm, E.
Qed.
End Ensures.

(** what [(m ≫= k) w] is, from what [m w] is *)
Lemma bind_Ok {A C} (m : M A) (k : A -> M C) w a w1 :
  m w = (Ok a, w1) -> (m ≫= k) w = k a w1.
Proof. intros H. unfold mbind, M_bind. rewrite H. reflexivity. Qed.

Lemma bind_Raise {A C} (m : M A) (k : A -> M C) w e w1 :
  m w = (Raise e, w1) -> (m ≫= k) w = (Raise e, w1).
Proof. intros H. unfold mbind, M_bind. rewrite H. reflexivity. Qed.

(** [frames], structurally: binds, handlers, branches, then the leaves *)
Ltac frames_tac :=
  repeat first
    [ apply frames_bind; [|intros ?]
    | apply frames_try_except; [|intros ?]
    | apply frames_ret | apply frames_raise | apply frames_lift
    | apply frames_ask | apply frames_call | apply frames_attempt
    | apply frames_modify; intros ?; reflexivity
    | match goal with
      | |- frames _ (match ?x with _ => _ end) => destruct x
      end
    | intros ?; repeat case_match; reflexivity ].

Section StoreFrames.
Variable env : Env.

Lemma file_read_frames {B} (f : World -> B) name : frames f (file_read name).
Proof. intros w. unfold file_read. case_match; reflexivity. Qed.

Lemma random_choice_frames {A B} (f : World -> B) (l : list A) :
  frames f (random_choice env l).
Proof. intros w. unfold random_choice. case_match; reflexivity. Qed.

(** the Script Synthesizer changes nothing *)
Lemma generate_podcast_script_frames {B} (f : World -> B) user_preferences market_data :
  frames f (generate_podcast_script env user_preferences market_data).
Proof. unfold generate_podcast_script. frames_tac. Qed.

(** steps 1 to 8 write to the file system, to the log of requests and to
    the bucket only *)
Lemma generate_podcast_upload_frames {B} (f : World -> B) uid :
  (forall g w, f (set_files g w) = f w) ->
  (forall g w, f (set_posts g w) = f w) ->
  (forall g w, f (set_bucket g w) = f w) ->
  frames f (generate_podcast_upload env uid).
Proof.
  intros Hfiles Hposts Hbucket.
  assert (Hunlink : forall name, frames f (os_unlink name)).
  { intros name w. unfold os_unlink. case_match; [apply Hfiles | reflexivity]. }
  assert (Hwrite : forall name data, frames f (file_write name data)).
  { intros name data w. apply Hfiles. }
  assert (Htemp : forall suffix, frames f (NamedTemporaryFile env suffix)).
  { intros suffix. unfold NamedTemporaryFile.
    apply frames_bind; [apply frames_call | intros name].
    apply frames_bind; [|intros ?; apply frames_ret].
    intros w. apply Hfiles. }
  unfold generate_podcast_upload, users_doc_get.
  apply frames_bind; [frames_tac | intros [user_data|]; [|apply frames_raise]].
  cbv zeta.
  apply frames_bind; [apply generate_podcast_script_frames | intros script].
  apply frames_bind; [|intros voice_audio_data].
  { unfold generate_voice. apply frames_try_except; [|intros e; apply frames_raise].
    apply frames_bind; [intros w; apply Hposts | intros ?; apply frames_call]. }
  apply frames_bind; [apply random_choice_frames | intros intro_filename].
  apply frames_bind; [|intros intro_audio].
  { unfold load_intro_audio, os_path_exists, from_mp3.
    apply frames_bind; [apply frames_ask | intros [|]; cbn [negb]].
    - apply frames_bind; [apply file_read_frames | intros ?; apply frames_call].
    - apply frames_ret. }
  apply frames_bind; [apply Htemp | intros temp_voice].
  apply frames_bind; [apply Hwrite | intros _].
  apply frames_bind; [|intros voice_audio].
  { unfold from_mp3.
    apply frames_bind; [apply file_read_frames | intros ?; apply frames_call]. }
  apply frames_bind; [apply Hunlink | intros _].
  apply frames_bind; [apply frames_lift | intros final_audio].
  apply frames_bind; [apply Htemp | intros temp_final].
  apply frames_bind; [|intros _].
  { unfold export. apply frames_bind; [apply frames_call | intros ?; apply Hwrite]. }
  apply frames_bind; [apply file_read_frames | intros final_audio_data].
  apply frames_bind; [apply Hunlink | intros _].
  apply frames_bind; [|intros url; apply frames_ret].
  unfold upload_to_firebase_storage.
  apply frames_bind; [apply frames_ask | intros now].
  apply frames_try_except; [|intros e; apply frames_raise].
  apply frames_bind; [apply frames_attempt | intros _].
  apply frames_bind; [intros w; apply Hbucket | intros _].
  apply frames_bind; [apply frames_attempt | intros _].
  apply frames_bind; [intros w; apply Hbucket | intros _].
  apply frames_ret.
Qed.

(** steps 9 to 11 write to the document store only *)
Lemma generate_podcast_record_frames {B} (f : World -> B) uid up :
  (forall g w, f (set_podcasts g w) = f w) ->
  (forall g w, f (set_users g w) = f w) ->
  frames f (generate_podcast_record env uid up).
Proof.
  intros Hpodcasts Husers.
  unfold generate_podcast_record, podcasts_add, users_doc_update.
  apply frames_bind; [apply frames_ask | intros now]. cbv zeta.
  apply frames_bind; [|intros podcast_id].
  { apply frames_bind; [apply frames_call | intros id].
    apply frames_bind; [|intros ?; apply frames_ret].
    intros w. apply Hpodcasts. }
  apply frames_bind; [|intros _].
  { apply frames_bind; [apply frames_attempt | intros _].
    intros w. case_match; [apply Husers | reflexivity]. }
  apply frames_bind; [apply frames_lift | intros ?; apply frames_ret].
Qed.
End StoreFrames.

(** ** Publisher *)

(** When the upload returns, the blob is in the bucket, public, and the URL
    returned is its public URL. *)
Lemma upload_to_firebase_storage_ensures env uid audio_data :
  ensures (fun url w' =>
             exists path, url = public_url env path
                          /\ bucket w' !! path = Some (audio_data, true))
          (upload_to_firebase_storage env uid audio_data).
Proof.
  intros w url w'.
  unfold upload_to_firebase_storage, try_except, attempt, modify, ask, raise,
    mret, M_ret, mbind, M_bind.
  destruct (upload_from_string_error env w _); [intros [=]|].
  destruct (make_public_error env _ _); [intros [=]|].
  intros [= <- <-]. eexists. split; [reflexivity|].
  cbn [bucket set_bucket]. apply lookup_insert_eq.
Qed.

Lemma generate_podcast_upload_ensures env uid :
  ensures (fun up w' =>
             exists path data, audio_url up = public_url env path
                               /\ bucket w' !! path = Some (data, true))
          (generate_podcast_upload env uid).
Proof.
  unfold generate_podcast_upload.
  apply ensures_bind. intros [user_data|]; [|apply ensures_raise].
  cbv zeta. do 13 (apply ensures_bind; intros ?).
  intros w up w'. unfold mbind, M_bind, mret, M_ret.
  match goal with
  | |- context [upload_to_firebase_storage env uid ?data w] =>
      destruct (upload_to_firebase_storage env uid data w) as [[url|e] w2] eqn:E;
      [|intros [=]];
      destruct (upload_to_firebase_storage_ensures env uid data w url w2 E)
        as (path & H1 & H2)
  end.
  intros [= <- <-]. cbn [audio_url]. eauto.
Qed.

(** C6: when the part of the pipeline that ends with the upload raises
    (steps 1 to 8, among them voice synthesis, mixing and the upload
    itself), [generate_podcast] raises the same exception, no
    Program Record has been created and no User Record has changed.
    Conversely a run that left the Program Records or the User Records
    changed has returned from the upload, and the blob is in the bucket. *)
Theorem no_record_without_upload env uid w :
  (forall e w1,
     generate_podcast_upload env uid w = (Raise e, w1) ->
     generate_podcast env uid w = (Raise e, w1)
     /\ podcasts w1 = podcasts w /\ users w1 = users w)
  /\ (forall r w',
        generate_podcast env uid w = (r, w') ->
        podcasts w' <> podcasts w \/ users w' <> users w ->
        exists up w1 path data,
          generate_podcast_upload env uid w = (Ok up, w1)
          /\ audio_url up = public_url env path
          /\ bucket w1 !! path = Some (data, true)).
Proof.
  assert (Hframe : forall r w1,
             generate_podcast_upload env uid w = (r, w1) ->
             podcasts w1 = podcasts w /\ users w1 = users w).
  { intros r w1 Hup.
    pose proof (generate_podcast_upload_frames env podcasts uid
                  (fun _ _ => eq_refl) (fun _ _ => eq_refl) (fun _ _ => eq_refl) w) as Hp.
    pose proof (generate_podcast_upload_frames env users uid
                  (fun _ _ => eq_refl) (fun _ _ => eq_refl) (fun _ _ => eq_refl) w) as Hu.
    rewrite Hup in Hp, Hu. auto. }
  split.
  - intros e w1 Hup. split; [|eapply Hframe, Hup].
    unfold generate_podcast, try_except.
    rewrite (bind_Raise _ _ _ _ _ Hup). reflexivity.
  - intros r w' Hrun Hchanged.
    destruct (generate_podcast_upload env uid w) as [[up|e] w1] eqn:Hup.
    + destruct (generate_podcast_upload_ensures env uid w up w1 Hup)
        as (path & data & H1 & H2).
      exists up, w1, path, data. auto.
    + exfalso.
      destruct (Hframe _ _ eq_refl) as [Hp Hu].
      unfold generate_podcast, try_except in Hrun.
      rewrite (bind_Raise _ _ _ _ _ Hup) in Hrun.
      injection Hrun as <- <-. tauto.
Qed.

Lemma no_record_without_upload_witness :
  let run fault := generate_podcast (demo_env fault) "alice" demo_world in
  Forall (fun fault =>
            is_ok (run fault).1 = false
            /\ podcasts (run fault).2 = []
            /\ users (run fault).2 = users demo_world)
         [VoiceDown; DecodeFails; EncodeFails; UploadFails].
Proof.
  intros run.
  assert (Hfail : forall fault,
             is_ok (generate_podcast_upload (demo_env fault) "alice" demo_world).1 = false ->
             is_ok (run fault).1 = false
             /\ podcasts (run fault).2 = []
             /\ users (run fault).2 = users demo_world).
  { intros fault Hup. unfold run.
    destruct (generate_podcast_upload (demo_env fault) "alice" demo_world)
      as [[up|e] w1] eqn:E; [discriminate Hup|].
    destruct (proj1 (no_record_without_upload (demo_env fault) "alice" demo_world)
                e w1 E) as (-> & Hp & Hu).
    auto. }
  repeat (constructor; [apply Hfail; vm_compute; reflexivity|]).
  constructor.
Defined.

(** C9: when the upload has returned and the creation of the Program Record
    or the update of the User Record raises, [generate_podcast] raises that
    exception to its caller, and the bucket is as the upload left it: the
    blob is still there, public. *)
Theorem upload_not_rolled_back env uid w up w1 e w' :
  generate_podcast_upload env uid w = (Ok up, w1) ->
  generate_podcast_record env uid up w1 = (Raise e, w') ->
  generate_podcast env uid w = (Raise e, w')
  /\ bucket w' = bucket w1
  /\ exists path data,
       audio_url up = public_url env path
       /\ bucket w' !! path = Some (data, true).
Proof.
  intros Hup Hrec.
  assert (Hbucket : bucket w' = bucket w1).
  { pose proof (generate_podcast_record_frames env bucket uid up
                  (fun _ _ => eq_refl) (fun _ _ => eq_refl) w1) as H.
    rewrite Hrec in H. exact H. }
  repeat split.
  - unfold generate_podcast, try_except.
    rewrite (bind_Ok _ _ _ _ _ Hup), Hrec. reflexivity.
  - exact Hbucket.
  - destruct (generate_podcast_upload_ensures env uid w up w1 Hup)
      as (path & data & H1 & H2).
    exists path, data. rewrite Hbucket. auto.
Qed.

Lemma upload_not_rolled_back_witness :
  Forall (fun fault =>
            let run := generate_podcast (demo_env fault) "alice" demo_world in
            is_ok run.1 = false
            /\ exists path data, bucket run.2 !! path = Some (data, true))
         [AddFails; UpdateFails].
Proof.
  assert (Hfail : forall fault,
             is_ok (generate_podcast_upload (demo_env fault) "alice" demo_world).1 = true ->
             (forall up w1,
                is_ok (generate_podcast_record (demo_env fault) "alice" up w1).1 = false) ->
             let run := generate_podcast (demo_env fault) "alice" demo_world in
             is_ok run.1 = false
             /\ exists path data, bucket run.2 !! path = Some (data, true)).
  { intros fault Hup Hrec.
    destruct (generate_podcast_upload (demo_env fault) "alice" demo_world)
      as [[up|e] w1] eqn:Eup; [|discriminate Hup].
    specialize (Hrec up w1).
    destruct (generate_podcast_record (demo_env fault) "alice" up w1)
      as [[summary|e] w'] eqn:Erec; [discriminate Hrec|].
    destruct (upload_not_rolled_back (demo_env fault) "alice" demo_world
                up w1 e w' Eup Erec) as (Hrun & _ & path & data & _ & Hblob).
    cbv zeta. rewrite Hrun. split; [reflexivity | eauto]. }
  constructor; [|constructor; [|constructor]]; apply Hfail.
  - vm_compute. reflexivity.
  - intros up w1. reflexivity.
  - vm_compute. reflexivity.
  - intros up w1. unfold generate_podcast_record, users_doc_update, podcasts_add,
      attempt, call, ask, modify, mret, M_ret, mbind, M_bind. reflexivity.
Defined.

(** C8, at a voice the codec cannot decode: [from_mp3] raises inside the
    first [with] block, [os.unlink] is not reached, and the temporary file
    (which did not exist before the run) is still on disk after it, with
    the voice bytes in it.  The same holds of the second temporary file
    when [export] raises. *)
Theorem temp_file_left_on_error :
  let decode := generate_podcast (demo_env DecodeFails) "alice" demo_world in
  let encode := generate_podcast (demo_env EncodeFails) "alice" demo_world in
  files demo_world !! "/tmp/tmp0.mp3" = None
  /\ decode.1 = Raise (OtherError "CouldntDecodeError")
  /\ files decode.2 !! "/tmp/tmp0.mp3" = Some [Byte.x49; Byte.x44; Byte.x33]
  /\ encode.1 = Raise (OtherError "CouldntEncodeError")
  /\ files encode.2 !! "/tmp/tmp0.mp3" = Some [].
Proof.
  intros decode encode.
  split; [reflexivity|].
  split; [vm_compute; reflexivity|].
  split; [vm_compute; reflexivity|].
  split; vm_compute; reflexivity.
Qed.

(** On the success path both temporary files are removed. *)
Example temp_files_removed_on_success :
  files (generate_podcast (demo_env NoFault) "alice" demo_world).2 = ∅.
Proof. vm_compute. reflexivity. Qed.

(** ** Default voice *)


Lemma generate_voice_run env script vid w :
  generate_voice env script vid w
  = (let url := elevenlabs_base_url ++ "/text-to-speech/" ++ py_str env vid in
     let w1 := set_posts (fun l => (l ++ [(url, script)])%list) w in
     (requests_post env w1 url script, w1)).
Proof.
  unfold generate_voice, try_except, modify, call, raise, mbind, M_bind.
  cbv zeta. destruct (requests_post env _ _ _); reflexivity.
Qed.

Ltac ensures_tac :=
  repeat first
    [ apply ensures_bind; intros ?
    | apply ensures_raise
    | apply ensures_ret; intros ?; reflexivity
    | match goal with
      | |- ensures _ (match ?x with _ => _ end) => destruct x
      end ].

Ltac unfold_steps :=
  unfold upload_to_firebase_storage, load_intro_audio, select_random_intro,
    export, from_mp3, os_unlink, os_path_exists, file_read, file_write,
    NamedTemporaryFile, random_choice.

(** Steps 1 to 8 for a user without [preferredVoiceId]: the one request they
    make to the speech backend goes to the URL of the default voice, and the
    voice identifier they hand on is the default one. *)
Lemma generate_podcast_upload_default_voice env uid w user_data r w1 :
  users w !! uid = Some user_data ->
  dict_lookup user_data "preferredVoiceId" = None ->
  generate_podcast_upload env uid w = (r, w1) ->
  (is_ok r = false /\ posts w1 = posts w)
  \/ (exists script,
        posts w1 = (posts w ++ [(default_voice_url, script)])%list
        /\ forall up, r = Ok up -> voice_id up = PyStr default_voice_id).
Proof.
  intros Hud Hvoice. unfold generate_podcast_upload.
  assert (Hget : users_doc_get env uid w = (Ok (Some user_data), w)
                 \/ exists e, users_doc_get env uid w = (Raise e, w)).
  { unfold users_doc_get, attempt, ask, mbind, M_bind.
    destruct (document_get_error env w uid); [right; eauto | left].
    rewrite Hud. reflexivity. }
  destruct Hget as [Hget | [e Hget]].
  2:{ rewrite (bind_Raise _ _ _ _ _ Hget). intros [= <- <-]. left. auto. }
  rewrite (bind_Ok _ _ _ _ _ Hget).
  unfold dict_get. rewrite Hvoice. cbv zeta.
  destruct (generate_podcast_script env user_data [] w) as [[script|e] w0] eqn:Hscript.
  2:{ rewrite (bind_Raise _ _ _ _ _ Hscript). intros [= <- <-]. left.
      pose proof (generate_podcast_script_frames env posts user_data [] w) as H.
      rewrite Hscript in H. auto. }
  assert (w0 = w) as ->.
  { pose proof (generate_podcast_script_frames env (fun w => w) user_data [] w) as H.
    rewrite Hscript in H. exact H. }
  rewrite (bind_Ok _ _ _ _ _ Hscript).
  pose proof (generate_voice_run env script (PyStr default_voice_id) w) as Hv.
  cbv zeta in Hv. cbn [py_str] in Hv. fold default_voice_url in Hv.
  set (w2 := set_posts _ w) in Hv.
  assert (Hposts : posts w2 = (posts w ++ [(default_voice_url, script)])%list)
    by reflexivity.
  clearbody w2.
  destruct (requests_post env w2 default_voice_url script) as [voice_audio_data|e].
  2:{ rewrite (bind_Raise _ _ _ _ _ Hv). intros [= <- <-]. right.
      exists script. split; [exact Hposts | intros up [=]]. }
  rewrite (bind_Ok _ _ _ _ _ Hv).
  intros Hrun. right. exists script. split.
  - rewrite <- Hposts.
    change w1 with (r, w1).2. rewrite <- Hrun. clear Hrun Hv Hposts.
    revert w2.
    match goal with |- forall w2, posts (?m w2).2 = posts w2 =>
      change (frames posts m)
    end.
    unfold_steps. frames_tac.
  - intros up ->. revert Hrun. clear.
    revert w2 up w1.
    match goal with |- forall w2 up w1, ?m w2 = (Ok up, w1) -> _ =>
      change (ensures (fun up _ => voice_id up = PyStr default_voice_id) m)
    end.
    unfold_steps. ensures_tac.
Qed.

(** Steps 9 to 11: the Program Record, when one is created, carries the
    voice identifier handed on. *)
Lemma generate_podcast_record_voice env uid up w1 r w' v :
  voice_id up = PyStr v ->
  generate_podcast_record env uid up w1 = (r, w') ->
  (is_ok r = false /\ podcasts w' = podcasts w1)
  \/ exists id record,
       podcasts w' = (podcasts w1 ++ [(id, record)])%list
       /\ dict_lookup record "voiceId" = Some (PyStr v).
Proof.
  intros Hv.
  unfold generate_podcast_record, podcasts_add, users_doc_update,
    attempt, call, ask, modify, lift, mret, M_ret, mbind, M_bind.
  rewrite Hv. cbv zeta.
  destruct (collection_add_id env w1 _) as [id|e]; [|intros [= <- <-]; left; auto].
  destruct (document_update_error env _ uid).
  - intros [= <- <-]. right. eexists _, _. split; reflexivity.
  - cbn [users set_podcasts].
    destruct (users w1 !! uid); intros [= <- <-]; right;
      eexists _, _; (split; reflexivity).
Qed.

(** C10: for a user whose record has no [preferredVoiceId], every request
    the run makes to the speech backend goes to the URL of the default
    voice, and the Program Record the run creates has the default identifier
    as its [voiceId]; a run that returns has done both. *)
Theorem default_voice_used_and_recorded env uid w user_data r w' :
  users w !! uid = Some user_data ->
  dict_lookup user_data "preferredVoiceId" = None ->
  generate_podcast env uid w = (r, w') ->
  let spoken :=
    exists script, posts w' = (posts w ++ [(default_voice_url, script)])%list in
  let recorded :=
    exists id record,
      podcasts w' = (podcasts w ++ [(id, record)])%list
      /\ dict_lookup record "voiceId" = Some (PyStr default_voice_id) in
  (posts w' = posts w \/ spoken)
  /\ (podcasts w' = podcasts w \/ recorded)
  /\ (is_ok r = true -> spoken /\ recorded).
Proof.
  intros Hud Hvoice Hrun spoken recorded. subst spoken recorded.
  unfold generate_podcast, try_except in Hrun.
  destruct (generate_podcast_upload env uid w) as [[up|e] w1] eqn:Hup.
  - pose proof (generate_podcast_upload_frames env podcasts uid
                  (fun _ _ => eq_refl) (fun _ _ => eq_refl) (fun _ _ => eq_refl) w) as Hp.
    rewrite Hup in Hp. cbn [snd] in Hp.
    destruct (generate_podcast_upload_default_voice env uid w user_data _ _ Hud Hvoice Hup)
      as [[Hno _] | (script & Hposts & Hid)]; [discriminate Hno|].
    specialize (Hid up eq_refl).
    rewrite (bind_Ok _ _ _ _ _ Hup) in Hrun.
    destruct (generate_podcast_record env uid up w1) as [r2 w2] eqn:Hrec.
    pose proof (generate_podcast_record_frames env posts uid up
                  (fun _ _ => eq_refl) (fun _ _ => eq_refl) w1) as Hposts2.
    rewrite Hrec in Hposts2. cbn [snd] in Hposts2.
    assert (w' = w2 /\ is_ok r = is_ok r2) as [-> Hok].
    { destruct r2; injection Hrun as <- <-; auto. }
    rewrite Hposts2, Hposts.
    destruct (generate_podcast_record_voice env uid up w1 r2 w2 _ Hid Hrec)
      as [[Hno Hsame] | (id & record & Hpodcasts & Hrecord)].
    + rewrite Hsame, Hp.
      split; [eauto|]. split; [auto|]. intros Hr. congruence.
    + rewrite Hpodcasts, Hp.
      split; [eauto|]. split; [eauto|]. intros _. split; eauto.
  - rewrite (bind_Raise _ _ _ _ _ Hup) in Hrun. injection Hrun as <- <-.
    pose proof (generate_podcast_upload_frames env podcasts uid
                  (fun _ _ => eq_refl) (fun _ _ => eq_refl) (fun _ _ => eq_refl) w) as Hp.
    rewrite Hup in Hp. cbn [snd] in Hp.
    destruct (generate_podcast_upload_default_voice env uid w user_data _ _ Hud Hvoice Hup)
      as [[_ Hposts] | (script & Hposts & _)].
    + split; [auto|]. split; [auto|]. discriminate.
    + split; [eauto|]. split; [auto|]. discriminate.
Qed.

Lemma default_voice_used_and_recorded_witness :
  let run := generate_podcast (demo_env NoFault) "alice" demo_world in
  dict_lookup alice "preferredVoiceId" = None
  /\ is_ok run.1 = true
  /\ (exists script, posts run.2 = [(default_voice_url, script)])
  /\ (exists id record,
        podcasts run.2 = [(id, record)]
        /\ dict_lookup record "voiceId" = Some (PyStr "vDchjyOZZytffNeZXfZK")).
Proof.
  intros run.
  assert (Hok : is_ok run.1 = true) by (vm_compute; reflexivity).
  destruct (default_voice_used_and_recorded (demo_env NoFault) "alice" demo_world
              alice run.1 run.2) as (_ & _ & H).
  - vm_compute. reflexivity.
  - reflexivity.
  - apply surjective_pairing.
  - destruct (H Hok) as [Hspoken Hrecorded]. auto.
Defined.

(** * The pipeline, stage by stage *)

(** ** Inversion of a run that returned *)

Lemma bind_Ok_inv {A C} (m : M A) (k : A -> M C) w c w' :
  (m ≫= k) w = (Ok c, w') ->
  exists a w1, m w = (Ok a, w1) /\ k a w1 = (Ok c, w').
Proof.
  unfold mbind, M_bind. destruct (m w) as [[a|e] w1]; [eauto | intros [=]].
Qed.

Lemma try_reraise_Ok_inv {A} (body : M A) w a w' :
  try_except body (fun e => raise e) w = (Ok a, w') -> body w = (Ok a, w').
Proof.
  unfold try_except, raise. destruct (body w) as [[a'|e] w1]; [auto | intros [=]].
Qed.

Lemma attempt_Ok_inv oracle w u w' :
  attempt oracle w = (Ok u, w') -> oracle w = None /\ w' = w.
Proof. unfold attempt. destruct (oracle w); intros [=]; auto. Qed.

Lemma ask_Ok_inv {A} (oracle : World -> A) w a w' :
  ask oracle w = (Ok a, w') -> a = oracle w /\ w' = w.
Proof. intros [=]; auto. Qed.

Lemma call_Ok_inv {A} (oracle : World -> result A) w a w' :
  call oracle w = (Ok a, w') -> oracle w = Ok a /\ w' = w.
Proof. intros [=]; auto. Qed.

Lemma lift_Ok_inv {A} (r : result A) w a w' :
  lift r w = (Ok a, w') -> r = Ok a /\ w' = w.
Proof. intros [=]; auto. Qed.

Lemma modify_Ok_inv g w u w' : modify g w = (Ok u, w') -> w' = g w.
Proof. intros [=]; auto. Qed.

Lemma ret_Ok_inv {A} (a : A) w a' w' :
  mret (M:=M) a w = (Ok a', w') -> a' = a /\ w' = w.
Proof. intros [=]; auto. Qed.

(** the facts of one returning step, by the shape of the step *)
Ltac invert_run H :=
  repeat match type of H with
  | (_ ≫= _) _ = (Ok _, _) =>
      let a := fresh "a" in let w := fresh "w" in let Hs := fresh "Hstep" in
      apply bind_Ok_inv in H as (a & w & Hs & H);
      invert_run Hs
  | try_except _ (fun e => raise e) _ = (Ok _, _) =>
      apply try_reraise_Ok_inv in H
  | attempt _ _ = (Ok _, _) =>
      let H1 := fresh "Hnone" in
      apply attempt_Ok_inv in H as [H1 ->]
  | ask _ _ = (Ok _, _) => apply ask_Ok_inv in H as [-> ->]
  | call _ _ = (Ok _, _) =>
      let H1 := fresh "Hcall" in
      apply call_Ok_inv in H as [H1 ->]
  | lift _ _ = (Ok _, _) =>
      let H1 := fresh "Hlift" in
      apply lift_Ok_inv in H as [H1 ->]
  | modify _ _ = (Ok _, _) => apply modify_Ok_inv in H as ->
  | mret _ _ = (Ok _, _) => apply ret_Ok_inv in H as [-> ->]
  end.

Section UploadReturns.
Variable env : Env.

Lemma users_doc_get_Ok_inv uid w user_doc w' :
  users_doc_get env uid w = (Ok user_doc, w') ->
  document_get_error env w uid = None /\ user_doc = users w !! uid /\ w' = w.
Proof. unfold users_doc_get. intros H. invert_run H. auto. Qed.

Lemma generate_podcast_script_Ok_inv user_preferences market_data w text w' :
  generate_podcast_script env user_preferences market_data w = (Ok text, w') ->
  w' = w /\ text <> "".
Proof.
  intros H.
  pose proof (generate_podcast_script_frames env (fun w => w) user_preferences market_data w) as Hw.
  rewrite H in Hw. cbn [snd] in Hw. subst w'. split; [reflexivity|].
  unfold generate_podcast_script in H.
  apply bind_Ok_inv in H as (prompt & w1 & Hp & H).
  revert H. unfold try_except, call, lift, mret, M_ret, mbind, M_bind, list_getitem.
  destruct (chat_completions_create env w1 system_prompt prompt) as [[|content rest]|e];
    cbn; intros [= <- _];
    auto using get_fallback_script_nonempty, or_else_nonempty.
Qed.

Lemma generate_voice_Ok_inv script vid w data w' :
  generate_voice env script vid w = (Ok data, w') ->
  let url := elevenlabs_base_url ++ "/text-to-speech/" ++ py_str env vid in
  w' = set_posts (fun l => (l ++ [(url, script)])%list) w
  /\ requests_post env w' url script = Ok data.
Proof.
  rewrite generate_voice_run. cbv zeta. intros [= H <-]. auto.
Qed.

Lemma select_random_intro_Ok_inv w name w' :
  select_random_intro env w = (Ok name, w') -> name ∈ intro_stingers /\ w' = w.
Proof.
  unfold select_random_intro, random_choice, intro_stingers, list_getitem.
  destruct (_ !! _) as [x|] eqn:E; [|intros [=]]. intros [= <- <-].
  split; [|reflexivity]. eapply list_elem_of_lookup_2, E.
Qed.

Lemma load_intro_audio_Ok_inv name w audio w' :
  load_intro_audio env name w = (Ok audio, w') ->
  w' = w
  /\ match files w !! (intro_dir ++ "/" ++ name) with
     | None => audio = pydub.silent 3000
     | Some data => decode_mp3 env w data = Ok audio
     end.
Proof.
  unfold load_intro_audio, os_path_exists, from_mp3, file_read, ask, call,
    mret, M_ret, mbind, M_bind.
  destruct (files w !! _) as [data|] eqn:E.
  - rewrite bool_decide_eq_true_2 by eauto. cbn [negb].
    rewrite E. intros [= H <-]; auto.
  - rewrite bool_decide_eq_false_2 by (intros [? ?]; congruence). cbn [negb].
    intros [= <- <-]; auto.
Qed.

(** step 5 or 7 with its temporary file, when it returns *)
Lemma NamedTemporaryFile_Ok_inv suffix w name w' :
  NamedTemporaryFile env suffix w = (Ok name, w') ->
  temp_name env w suffix = Ok name /\ w' = set_files <[name := []]> w.
Proof. unfold NamedTemporaryFile. intros H. invert_run H. auto. Qed.

Lemma os_unlink_Ok_inv name w u w' :
  os_unlink name w = (Ok u, w') ->
  is_Some (files w !! name) /\ w' = set_files (delete name) w.
Proof. unfold os_unlink. destruct (files w !! name); intros [=]; eauto. Qed.

Lemma file_read_Ok_inv name w data w' :
  file_read name w = (Ok data, w') -> files w !! name = Some data /\ w' = w.
Proof. unfold file_read. destruct (files w !! name); intros [=]; subst; eauto. Qed.

Lemma upload_to_firebase_storage_Ok_inv uid data w url w' :
  upload_to_firebase_storage env uid data w = (Ok url, w') ->
  let path := blob_path uid (datetime_now env w) in
  url = public_url env path
  /\ w' = set_bucket <[path := (data, true)]> (set_bucket <[path := (data, false)]> w).
Proof.
  unfold upload_to_firebase_storage. intros H. invert_run H. auto.
Qed.
End UploadReturns.

Lemma World_eta w :
  {| users := users w; podcasts := podcasts w; bucket := bucket w;
     files := files w; posts := posts w |} = w.
Proof. destruct w. reflexivity. Qed.

Section PipelineReturns.
Variable env : Env.

(** What steps 1 to 8 have done when they return. *)
Lemma generate_podcast_upload_Ok_inv uid w up w1 :
  generate_podcast_upload env uid w = (Ok up, w1) ->
  exists (user_data : pydict) (intro_audio voice_audio : pydub.AudioSegment)
         (temp_voice temp_final : string) (final_audio_data : bytes)
         (now : datetime),
    users w !! uid = Some user_data
    /\ voice_id up = dict_get user_data "preferredVoiceId" (PyStr default_voice_id)
    /\ script up <> ""
    /\ intro_filename up ∈ intro_stingers
    /\ mix_audio env intro_audio voice_audio = Ok (final_audio up)
    /\ audio_url up = public_url env (blob_path uid now)
    /\ users w1 = users w
    /\ podcasts w1 = podcasts w
    /\ posts w1 = (posts w ++ [(voice_url env (voice_id up), script up)])%list
    /\ files w1 = delete temp_final (delete temp_voice (files w))
    /\ bucket w1 = <[blob_path uid now := (final_audio_data, true)]> (bucket w).
Proof.
  unfold generate_podcast_upload. intros H.
  apply bind_Ok_inv in H as (user_doc & w0 & Hget & H).
  apply users_doc_get_Ok_inv in Hget as (_ & -> & ->).
  destruct (users w !! uid) as [user_data|] eqn:Hud; [|discriminate H].
  cbv zeta in H.
  apply bind_Ok_inv in H as (text & w0 & Hscript & H).
  apply generate_podcast_script_Ok_inv in Hscript as [-> Hscript].
  apply bind_Ok_inv in H as (voice_audio_data & w2 & Hvoice & H).
  apply generate_voice_Ok_inv in Hvoice as [Hw2 _]. cbv zeta in Hw2.
  apply bind_Ok_inv in H as (chosen & w0 & Hintro & H).
  apply select_random_intro_Ok_inv in Hintro as [Hintro ->].
  apply bind_Ok_inv in H as (intro_audio & w0 & Hload & H).
  apply load_intro_audio_Ok_inv in Hload as [-> _].
  apply bind_Ok_inv in H as (temp_voice & w3 & Htemp1 & H).
  apply NamedTemporaryFile_Ok_inv in Htemp1 as [_ Hw3].
  apply bind_Ok_inv in H as (u1 & w4 & Hwrite & H).
  apply modify_Ok_inv in Hwrite as Hw4.
  apply bind_Ok_inv in H as (voice_audio & w5 & Hdecode & H).
  assert (w5 = w4) as ->.
  { unfold from_mp3 in Hdecode.
    apply bind_Ok_inv in Hdecode as (d & w0 & Hread & Hcall).
    apply file_read_Ok_inv in Hread as [_ ->].
    apply call_Ok_inv in Hcall as [_ ->]. reflexivity. }
  apply bind_Ok_inv in H as (u2 & w5 & Hunlink1 & H).
  apply os_unlink_Ok_inv in Hunlink1 as [_ Hw5].
  apply bind_Ok_inv in H as (mixed & w0 & Hmix & H).
  apply lift_Ok_inv in Hmix as [Hmix ->].
  apply bind_Ok_inv in H as (temp_final & w6 & Htemp2 & H).
  apply NamedTemporaryFile_Ok_inv in Htemp2 as [_ Hw6].
  apply bind_Ok_inv in H as (u3 & w7 & Hexport & H).
  unfold export in Hexport.
  apply bind_Ok_inv in Hexport as (encoded & w0 & Hencode & Hwrite2).
  apply call_Ok_inv in Hencode as [_ ->].
  apply modify_Ok_inv in Hwrite2 as Hw7.
  apply bind_Ok_inv in H as (final_audio_data & w0 & Hread & H).
  apply file_read_Ok_inv in Hread as [Hread ->].
  apply bind_Ok_inv in H as (u4 & w8 & Hunlink2 & H).
  apply os_unlink_Ok_inv in Hunlink2 as [_ Hw8].
  apply bind_Ok_inv in H as (url & w9 & Hupload & H).
  apply upload_to_firebase_storage_Ok_inv in Hupload as [Hurl Hw9].
  apply ret_Ok_inv in H as [-> ->].
  assert (final_audio_data = encoded) as ->.
  { subst w7. cbn [files set_files] in Hread.
    rewrite lookup_insert_eq in Hread. congruence. }
  exists user_data, intro_audio, voice_audio,
    temp_voice, temp_final, encoded, (datetime_now env w8).
  cbn [voice_id script intro_filename final_audio audio_url].
  subst w9 w8 w7 w6 w5 w4 w3 w2.
  cbn [users podcasts posts files bucket set_bucket set_files set_posts].
  repeat split; try done.
  - rewrite !delete_insert_eq. reflexivity.
  - rewrite insert_insert_eq. reflexivity.
Qed.

(** The world the upload of step 8 is called in, when steps 1 to 8 return:
    the store and the bucket are as the run found them, the request log
    and the files as steps 1 to 8 leave them. *)
Lemma generate_podcast_upload_Ok_world uid w up w1 :
  generate_podcast_upload env uid w = (Ok up, w1) ->
  exists (w_up : World) (final_audio_data : bytes),
    upload_to_firebase_storage env uid final_audio_data w_up = (Ok (audio_url up), w1)
    /\ users w_up = users w
    /\ podcasts w_up = podcasts w
    /\ bucket w_up = bucket w
    /\ files w_up = files w1
    /\ posts w_up = posts w1.
Proof.
  unfold generate_podcast_upload. intros H.
  apply bind_Ok_inv in H as (user_doc & w0 & Hget & H).
  apply users_doc_get_Ok_inv in Hget as (_ & -> & ->).
  destruct (users w !! uid) as [user_data|] eqn:Hud; [|discriminate H].
  cbv zeta in H.
  apply bind_Ok_inv in H as (text & w0 & Hscript & H).
  apply generate_podcast_script_Ok_inv in Hscript as [-> Hscript].
  apply bind_Ok_inv in H as (voice_audio_data & w2 & Hvoice & H).
  apply generate_voice_Ok_inv in Hvoice as [Hw2 _]. cbv zeta in Hw2.
  apply bind_Ok_inv in H as (chosen & w0 & Hintro & H).
  apply select_random_intro_Ok_inv in Hintro as [Hintro ->].
  apply bind_Ok_inv in H as (intro_audio & w0 & Hload & H).
  apply load_intro_audio_Ok_inv in Hload as [-> _].
  apply bind_Ok_inv in H as (temp_voice & w3 & Htemp1 & H).
  apply NamedTemporaryFile_Ok_inv in Htemp1 as [_ Hw3].
  apply bind_Ok_inv in H as (u1 & w4 & Hwrite & H).
  apply modify_Ok_inv in Hwrite as Hw4.
  apply bind_Ok_inv in H as (voice_audio & w5 & Hdecode & H).
  assert (w5 = w4) as ->.
  { unfold from_mp3 in Hdecode.
    apply bind_Ok_inv in Hdecode as (d & w0 & Hread & Hcall).
    apply file_read_Ok_inv in Hread as [_ ->].
    apply call_Ok_inv in Hcall as [_ ->]. reflexivity. }
  apply bind_Ok_inv in H as (u2 & w5 & Hunlink1 & H).
  apply os_unlink_Ok_inv in Hunlink1 as [_ Hw5].
  apply bind_Ok_inv in H as (mixed & w0 & Hmix & H).
  apply lift_Ok_inv in Hmix as [Hmix ->].
  apply bind_Ok_inv in H as (temp_final & w6 & Htemp2 & H).
  apply NamedTemporaryFile_Ok_inv in Htemp2 as [_ Hw6].
  apply bind_Ok_inv in H as (u3 & w7 & Hexport & H).
  unfold export in Hexport.
  apply bind_Ok_inv in Hexport as (encoded & w0 & Hencode & Hwrite2).
  apply call_Ok_inv in Hencode as [_ ->].
  apply modify_Ok_inv in Hwrite2 as Hw7.
  apply bind_Ok_inv in H as (final_audio_data & w0 & Hread & H).
  apply file_read_Ok_inv in Hread as [Hread ->].
  apply bind_Ok_inv in H as (u4 & w8 & Hunlink2 & H).
  apply os_unlink_Ok_inv in Hunlink2 as [_ Hw8].
  apply bind_Ok_inv in H as (url & w9 & Hupload & H).
  apply ret_Ok_inv in H as [-> ->].
  exists w8, final_audio_data. cbn [audio_url].
  split; [exact Hupload|].
  apply upload_to_firebase_storage_Ok_inv in Hupload as [_ Hw9]. cbv zeta in Hw9.
  subst w9 w8 w7 w6 w5 w4 w3 w2.
  cbn [users podcasts posts files bucket set_bucket set_files set_posts].
  repeat split; reflexivity.
Qed.
End PipelineReturns.

(** ** [dict.update] against [dict.get] *)

Lemma dict_lookup_set d k v k' :
  dict_lookup (dict_set d k v) k' = if String.eqb k k' then Some v else dict_lookup d k'.
Proof.
  induction d as [|[k0 v0] d IH]; cbn [dict_set dict_lookup].
  - destruct (String.eqb k k'); reflexivity.
  - destruct (String.eqb k0 k) eqn:E0; cbn [dict_lookup].
    + apply String.eqb_eq in E0 as ->.
      destruct (String.eqb k k'); reflexivity.
    + rewrite IH. destruct (String.eqb k0 k') eqn:E1; [|reflexivity].
      apply String.eqb_eq in E1 as ->. rewrite String.eqb_sym, E0. reflexivity.
Qed.

Lemma dict_lookup_update_last d stamp url k :
  dict_lookup (dict_update d [("lastPodcast", stamp); ("lastPodcastUrl", url)]) k
  = if String.eqb "lastPodcastUrl" k then Some url
    else if String.eqb "lastPodcast" k then Some stamp
    else dict_lookup d k.
Proof. unfold dict_update. cbn [fold_left fst snd]. rewrite !dict_lookup_set. reflexivity. Qed.

Section RecordReturns.
Variable env : Env.


(** What steps 9 to 11 have done when they return. *)
Lemma generate_podcast_record_Ok_inv uid up w1 summary w' :
  generate_podcast_record env uid up w1 = (Ok summary, w') ->
  exists (id : string) (user_data : pydict) (now created updated : datetime),
    users w1 !! uid = Some user_data
    /\ podcasts w' = (podcasts w1 ++ [(id, stored_record uid up now created
                                           (resolve_sentinel env w1 (voice_id up)))])%list
    /\ users w' = <[uid := dict_update user_data
                             [("lastPodcast", PyDatetime updated);
                              ("lastPodcastUrl", PyStr (audio_url up))]]> (users w1)
    /\ summary = [("id", PyStr id); ("userId", PyStr uid);
                  ("audioUrl", PyStr (audio_url up));
                  ("duration", PyFloat (pydub.len (final_audio up) # 1000));
                  ("status", PyStr "completed")]
    /\ posts w' = posts w1 /\ files w' = files w1 /\ bucket w' = bucket w1.
Proof.
  unfold generate_podcast_record, podcasts_add, users_doc_update,
    attempt, call, ask, modify, lift, mret, M_ret, mbind, M_bind.
  cbv zeta.
  destruct (collection_add_id env w1 _) as [id|e]; [|intros [=]].
  destruct (document_update_error env _ uid); [intros [=]|].
  cbn [users set_podcasts].
  destruct (users w1 !! uid) as [user_data|] eqn:Hud; [|intros [=]].
  intros [= <- <-].
  eexists id, user_data, _, _, _.
  cbn [podcasts users posts files bucket set_users set_podcasts].
  repeat split; reflexivity.
Qed.

Lemma generate_podcast_Ok_inv uid w summary w' :
  generate_podcast env uid w = (Ok summary, w') ->
  exists up w1,
    generate_podcast_upload env uid w = (Ok up, w1)
    /\ generate_podcast_record env uid up w1 = (Ok summary, w').
Proof.
  unfold generate_podcast. intros H.
  apply try_reraise_Ok_inv in H. apply bind_Ok_inv in H. exact H.
Qed.
End RecordReturns.

(** ** A run that returns *)

Section Returns.
Variable env : Env.

(** A run that returns has appended one Program Record, of the user, with
    the identifier, the audio location and the duration it reports to its
    caller; the script stored in the record is the text the speech backend
    was sent, and is not empty; the intro named is one of the configured
    ones. *)
Theorem generate_podcast_creates_record uid w summary w' :
  generate_podcast env uid w = (Ok summary, w') ->
  exists id record text name,
    podcasts w' = (podcasts w ++ [(id, record)])%list
    /\ summary = [("id", PyStr id); ("userId", PyStr uid);
                  ("audioUrl", dict_get record "audioUrl" PyNone);
                  ("duration", dict_get record "duration" PyNone);
                  ("status", PyStr "completed")]
    /\ dict_lookup record "userId" = Some (PyStr uid)
    /\ dict_lookup record "status" = Some (PyStr "completed")
    /\ dict_lookup record "script" = Some (PyStr text)
    /\ text <> ""
    /\ (exists url, posts w' = (posts w ++ [(url, text)])%list)
    /\ dict_lookup record "introStinger" = Some (PyStr name)
    /\ name ∈ intro_stingers.
Proof.
  intros Hrun.
  apply generate_podcast_Ok_inv in Hrun as (up & w1 & Hup & Hrec).
  apply generate_podcast_upload_Ok_inv in Hup
    as (user_data & intro_audio & voice_audio & temp_voice & temp_final
        & data & now & Hud & Hvoice & Hscript & Hintro & Hmix & Hurl
        & Husers & Hpodcasts & Hposts & Hfiles & Hbucket).
  apply generate_podcast_record_Ok_inv in Hrec
    as (id & user_data' & now' & created & updated & Hud' & Hpodcasts' & Husers'
        & -> & Hposts' & Hfiles' & Hbucket').
  eexists id, _, (script up), (intro_filename up).
  rewrite Hpodcasts', Hpodcasts, Hposts', Hposts.
  split; [reflexivity|]. split; [reflexivity|].
  split; [reflexivity|]. split; [reflexivity|]. split; [reflexivity|].
  split; [exact Hscript|]. split; [eauto|]. split; [reflexivity | exact Hintro].
Qed.

(** A run that returns has written the two last-generation fields of the
    user's record, the location being the one it reports, and no other
    field of it; no other record of the collection has changed. *)
Theorem generate_podcast_updates_user uid w summary w' :
  generate_podcast env uid w = (Ok summary, w') ->
  exists user_data user_data' stamp url,
    users w !! uid = Some user_data
    /\ users w' = <[uid := user_data']> (users w)
    /\ dict_lookup user_data' "lastPodcast" = Some (PyDatetime stamp)
    /\ dict_lookup user_data' "lastPodcastUrl" = Some (PyStr url)
    /\ dict_lookup summary "audioUrl" = Some (PyStr url)
    /\ forall k, k <> "lastPodcast" -> k <> "lastPodcastUrl" ->
                 dict_lookup user_data' k = dict_lookup user_data k.
Proof.
  intros Hrun.
  apply generate_podcast_Ok_inv in Hrun as (up & w1 & Hup & Hrec).
  apply generate_podcast_upload_Ok_inv in Hup
    as (user_data & intro_audio & voice_audio & temp_voice & temp_final
        & data & now & Hud & Hvoice & Hscript & Hintro & Hmix & Hurl
        & Husers & Hpodcasts & Hposts & Hfiles & Hbucket).
  apply generate_podcast_record_Ok_inv in Hrec
    as (id & user_data' & now' & created & updated & Hud' & Hpodcasts' & Husers'
        & -> & Hposts' & Hfiles' & Hbucket').
  rewrite Husers in Hud', Husers'. rewrite Hud in Hud'. injection Hud' as <-.
  eexists user_data, _, updated, (audio_url up).
  split; [exact Hud|]. split; [exact Husers'|].
  split; [rewrite dict_lookup_update_last; reflexivity|].
  split; [rewrite dict_lookup_update_last; reflexivity|].
  split; [reflexivity|].
  intros k Hk1 Hk2. rewrite dict_lookup_update_last.
  destruct (String.eqb "lastPodcastUrl" k) eqn:E1;
    [apply String.eqb_eq in E1; congruence|].
  destruct (String.eqb "lastPodcast" k) eqn:E2;
    [apply String.eqb_eq in E2; congruence|].
  reflexivity.
Qed.

(** A run that returns has put one blob in the bucket, public, at the path
    [podcasts/<uid>/podcast_<YYYYMMDD_HHMMSS>.mp3] of the time of the upload,
    and reports its public URL; every other blob is as it was.  The time is
    the one the clock shows in the world [w_up] the upload is called in:
    nothing is written to the store or to the bucket yet, the request to
    the speech backend is logged and the temporary files are gone. *)
Theorem generate_podcast_stores_blob uid w summary w' :
  generate_podcast env uid w = (Ok summary, w') ->
  let w_up := {| users := users w; podcasts := podcasts w; bucket := bucket w;
                 files := files w'; posts := posts w' |} in
  let path := blob_path uid (datetime_now env w_up) in
  exists data w1,
    upload_to_firebase_storage env uid data w_up = (Ok (public_url env path), w1)
    /\ dict_lookup summary "audioUrl" = Some (PyStr (public_url env path))
    /\ bucket w' !! path = Some (data, true)
    /\ forall p, p <> path -> bucket w' !! p = bucket w !! p.
Proof.
  intros Hrun.
  apply generate_podcast_Ok_inv in Hrun as (up & w1 & Hup & Hrec).
  apply generate_podcast_upload_Ok_world in Hup
    as (w_up & data & Hupload & Husers & Hpodcasts & Hbucket & Hfiles & Hposts).
  apply generate_podcast_record_Ok_inv in Hrec
    as (id & user_data' & now' & created & updated & Hud' & Hpodcasts' & Husers'
        & -> & Hposts' & Hfiles' & Hbucket').
  rewrite Hposts', Hfiles', <- Hfiles, <- Hposts, <- Husers, <- Hpodcasts, <- Hbucket.
  rewrite (World_eta w_up). cbv zeta.
  pose proof Hupload as Hinv.
  apply upload_to_firebase_storage_Ok_inv in Hinv as [Hurl Hw1]. cbv zeta in Hurl, Hw1.
  exists data, w1. rewrite <- Hurl.
  split; [exact Hupload|].
  split; [reflexivity|].
  rewrite Hbucket', Hw1. cbn [bucket set_bucket]. rewrite insert_insert_eq.
  split; [apply lookup_insert_eq|].
  intros p Hp. apply lookup_insert_ne. congruence.
Qed.

(** A run that returns leaves no temporary file: the files on disk after it
    were there before it, with the same content. *)
Theorem generate_podcast_removes_temp_files uid w summary w' :
  generate_podcast env uid w = (Ok summary, w') ->
  files w' ⊆ files w.
Proof.
  intros Hrun.
  apply generate_podcast_Ok_inv in Hrun as (up & w1 & Hup & Hrec).
  apply generate_podcast_upload_Ok_inv in Hup
    as (user_data & intro_audio & voice_audio & temp_voice & temp_final
        & data & now & Hud & Hvoice & Hscript & Hintro & Hmix & Hurl
        & Husers & Hpodcasts & Hposts & Hfiles & Hbucket).
  apply generate_podcast_record_Ok_inv in Hrec
    as (id & user_data' & now' & created & updated & Hud' & Hpodcasts' & Husers'
        & -> & Hposts' & Hfiles' & Hbucket').
  rewrite Hfiles', Hfiles.
  etrans; apply delete_subseteq.
Qed.

(** A run that returns for a user whose record has a [preferredVoiceId]
    that is a string has requested that voice and recorded it, the empty
    string included: the default stands in for an absent key only. *)
Theorem generate_podcast_uses_preferred_voice uid w summary w' user_data v :
  users w !! uid = Some user_data ->
  dict_lookup user_data "preferredVoiceId" = Some (PyStr v) ->
  generate_podcast env uid w = (Ok summary, w') ->
  exists id record text,
    podcasts w' = (podcasts w ++ [(id, record)])%list
    /\ dict_lookup record "voiceId" = Some (PyStr v)
    /\ posts w' = (posts w ++ [(voice_url env (PyStr v), text)])%list.
Proof.
  intros Hud0 Hv Hrun.
  apply generate_podcast_Ok_inv in Hrun as (up & w1 & Hup & Hrec).
  apply generate_podcast_upload_Ok_inv in Hup
    as (user_data0 & intro_audio & voice_audio & temp_voice & temp_final
        & data & now & Hud & Hvoice & Hscript & Hintro & Hmix & Hurl
        & Husers & Hpodcasts & Hposts & Hfiles & Hbucket).
  apply generate_podcast_record_Ok_inv in Hrec
    as (id & user_data' & now' & created & updated & Hud' & Hpodcasts' & Husers'
        & -> & Hposts' & Hfiles' & Hbucket').
  rewrite Hud0 in Hud. injection Hud as <-.
  unfold dict_get in Hvoice. rewrite Hv in Hvoice.
  eexists id, _, (script up).
  rewrite Hpodcasts', Hpodcasts, Hposts', Hposts, Hvoice.
  split; [reflexivity|]. split; reflexivity.
Qed.

(** For an identifier that is not in the collection the run raises, a
    [ValueError] naming the user when the store answered, and does nothing:
    no backend is called and nothing is written. *)
Theorem generate_podcast_unknown_user uid w :
  users w !! uid = None ->
  exists e,
    generate_podcast env uid w = (Raise e, w)
    /\ (document_get_error env w uid = None ->
        e = ValueError ("User " ++ uid ++ " not found")).
Proof.
  intros Hnone.
  unfold generate_podcast, generate_podcast_upload, users_doc_get,
    try_except, attempt, ask, raise, mbind, M_bind.
  destruct (document_get_error env w uid) as [e|].
  - exists e. split; [reflexivity | discriminate].
  - rewrite Hnone. eexists. split; reflexivity.
Qed.
End Returns.

(** ** What no run does *)





Lemma same_profile_refl d : same_profile d d.
Proof. intros k _ _. reflexivity. Qed.

Lemma same_profile_trans d1 d2 d3 :
  same_profile d1 d2 -> same_profile d2 d3 -> same_profile d1 d3.
Proof. intros H12 H23 k Hk1 Hk2. rewrite H23, H12 by assumption. reflexivity. Qed.

Lemma store_kept_refl w : store_kept w w.
Proof.
  split; [unfold records_kept; reflexivity|].
  intros uid. destruct (users w !! uid); constructor. apply same_profile_refl.
Qed.

Lemma store_kept_trans w1 w2 w3 :
  store_kept w1 w2 -> store_kept w2 w3 -> store_kept w1 w3.
Proof.
  intros [Hr12 Hu12] [Hr23 Hu23]. split; [unfold records_kept in *; by etrans|].
  intros uid. specialize (Hu12 uid). specialize (Hu23 uid).
  destruct Hu12 as [d1 d2 H12|]; inversion Hu23 as [d2' d3 H23|]; subst;
    constructor. eapply same_profile_trans; eassumption.
Qed.

Lemma store_kept_same w w' :
  podcasts w' = podcasts w -> users w' = users w -> store_kept w w'.
Proof.
  intros Hp Hu. split; [unfold records_kept; rewrite Hp; reflexivity|].
  intros uid. rewrite Hu. destruct (users w !! uid); constructor.
  apply same_profile_refl.
Qed.

Section Kept.
Variable env : Env.

(** steps 9 to 11, whatever their outcome *)
Lemma generate_podcast_record_kept uid up w1 :
  store_kept w1 (generate_podcast_record env uid up w1).2.
Proof.
  unfold generate_podcast_record, podcasts_add, users_doc_update,
    attempt, call, ask, modify, lift, mret, M_ret, mbind, M_bind.
  cbv zeta.
  match goal with
  | |- context [dict_getitem ?d "duration"] =>
      change (dict_getitem d "duration")
        with (Ok (PyFloat (pydub.len (final_audio up) # 1000)))
  end.
  destruct (collection_add_id env w1 _) as [id|e]; [|apply store_kept_refl].
  assert (Happend : forall (l : list (string * pydict)) x,
             l `prefix_of` (l ++ [x])%list).
  { intros l x. apply prefix_app_r. reflexivity. }
  destruct (document_update_error env _ uid).
  - split; [apply Happend|].
    intros uid'. cbn [users set_podcasts snd].
    destruct (users w1 !! uid'); constructor. apply same_profile_refl.
  - cbn [users set_podcasts].
    destruct (users w1 !! uid) as [user_data|] eqn:Hud; cbn [snd].
    + split; [apply Happend|].
      intros uid'. cbn [users set_users set_podcasts].
      destruct (decide (uid = uid')) as [<-|Hne].
      * rewrite lookup_insert_eq, Hud. constructor.
        intros k Hk1 Hk2.
        cbn [fmap list_fmap prod_map resolve_sentinel fst snd].
        rewrite dict_lookup_update_last.
        destruct (String.eqb "lastPodcastUrl" k) eqn:E1;
          [apply String.eqb_eq in E1; congruence|].
        destruct (String.eqb "lastPodcast" k) eqn:E2;
          [apply String.eqb_eq in E2; congruence|].
        reflexivity.
      * rewrite lookup_insert_ne by exact Hne.
        destruct (users w1 !! uid'); constructor. apply same_profile_refl.
    + split; [apply Happend|].
      intros uid'. cbn [users set_podcasts].
      destruct (users w1 !! uid'); constructor. apply same_profile_refl.
Qed.

Lemma generate_podcast_kept uid w :
  store_kept w (generate_podcast env uid w).2.
Proof.
  unfold generate_podcast, try_except.
  destruct (generate_podcast_upload env uid w) as [[up|e] w1] eqn:Hup.
  - rewrite (bind_Ok _ _ _ _ _ Hup).
    pose proof (generate_podcast_record_kept uid up w1) as Hrec.
    assert (Hframe : store_kept w w1).
    { apply store_kept_same.
      - pose proof (generate_podcast_upload_frames env podcasts uid
                      (fun _ _ => eq_refl) (fun _ _ => eq_refl) (fun _ _ => eq_refl) w) as H.
        rewrite Hup in H. exact H.
      - pose proof (generate_podcast_upload_frames env users uid
                      (fun _ _ => eq_refl) (fun _ _ => eq_refl) (fun _ _ => eq_refl) w) as H.
        rewrite Hup in H. exact H. }
    destruct (generate_podcast_record env uid up w1) as [[summary|e] w2];
      cbn [snd raise] in *; eapply store_kept_trans; eassumption.
  - rewrite (bind_Raise _ _ _ _ _ Hup). cbn [snd raise].
    apply store_kept_same.
    + pose proof (generate_podcast_upload_frames env podcasts uid
                    (fun _ _ => eq_refl) (fun _ _ => eq_refl) (fun _ _ => eq_refl) w) as H.
      rewrite Hup in H. exact H.
    + pose proof (generate_podcast_upload_frames env users uid
                    (fun _ _ => eq_refl) (fun _ _ => eq_refl) (fun _ _ => eq_refl) w) as H.
      rewrite Hup in H. exact H.
Qed.

(** the world the loop body leaves is the one it found or the one
    [generate_podcast] left *)
Lemma weekly_job_step_world results user_doc w :
  (weekly_job_step env results user_doc w).2 = w
  \/ (weekly_job_step env results user_doc w).2
     = (generate_podcast env user_doc.1 w).2.
Proof.
  unfold weekly_job_step, try_except, ask, lift, mret, M_ret, mbind, M_bind.
  destruct (should_generate_podcast _ _ _) as [[|]|e]; [|left; reflexivity..].
  right. destruct (generate_podcast env user_doc.1 w) as [[summary|e] w']; reflexivity.
Qed.

Lemma for_each_weekly_job_step_kept user_docs : forall results w,
  store_kept w (for_each (weekly_job_step env) user_docs results w).2.
Proof.
  induction user_docs as [|user_doc user_docs IH]; intros results w.
  - apply store_kept_refl.
  - cbn [for_each]. unfold mbind, M_bind.
    destruct (weekly_job_step_counts env results user_doc w)
      as (results1 & w1 & Hstep & _).
    rewrite Hstep.
    eapply store_kept_trans; [|apply IH].
    destruct (weekly_job_step_world results user_doc w) as [H|H];
      rewrite Hstep in H; cbn [snd] in H; subst w1.
    + apply store_kept_refl.
    + apply generate_podcast_kept.
Qed.

(** Neither a run for one user nor the weekly job removes or changes a
    Program Record, adds or removes a user, or writes a field of a user
    record other than [lastPodcast] and [lastPodcastUrl]. *)
Theorem store_never_overwritten uid w :
  store_kept w (generate_podcast env uid w).2
  /\ store_kept w (run_weekly_job env w).2.
Proof.
  split; [apply generate_podcast_kept|].
  unfold run_weekly_job, users_stream, try_except, attempt, ask, raise,
    mret, M_ret, mbind, M_bind.
  destruct (collection_stream_error env w); [apply store_kept_refl|].
  pose proof (for_each_weekly_job_step_kept (map_to_list (users w))
                (mk_results 0 0 0) w) as H.
  destruct (for_each _ _ _ w) as [[results|e] w']; exact H.
Qed.
End Kept.

(** ** The counts of the weekly job *)


Lemma first_time_split (user_docs : list (string * pydict)) :
  (length (filter (fun u => first_time u = true) user_docs)
   + length (filter (fun u => first_time u = false) user_docs)
   = length user_docs)%nat.
Proof.
  induction user_docs as [|u l IH]; [reflexivity|].
  rewrite !filter_cons. destruct (first_time u); repeat case_decide;
    try congruence; cbn [length]; lia.
Qed.

Section Counts.
Variable env : Env.

Lemma generate_podcast_record_appends uid up w1 :
  let run := generate_podcast_record env uid up w1 in
  (is_ok run.1 = false /\ podcasts run.2 = podcasts w1)
  \/ exists record, podcasts run.2 = (podcasts w1 ++ [record])%list.
Proof.
  unfold generate_podcast_record, podcasts_add, users_doc_update,
    attempt, call, ask, modify, lift, mret, M_ret, mbind, M_bind.
  cbv zeta.
  destruct (collection_add_id env w1 _) as [id|e]; [|left; auto].
  right.
  destruct (document_update_error env _ uid); [eexists; reflexivity|].
  cbn [users set_podcasts].
  destruct (users w1 !! uid); eexists; reflexivity.
Qed.

Lemma generate_podcast_appends uid w :
  let run := generate_podcast env uid w in
  (is_ok run.1 = false /\ podcasts run.2 = podcasts w)
  \/ exists record, podcasts run.2 = (podcasts w ++ [record])%list.
Proof.
  cbv zeta. unfold generate_podcast, try_except.
  pose proof (generate_podcast_upload_frames env podcasts uid
                (fun _ _ => eq_refl) (fun _ _ => eq_refl) (fun _ _ => eq_refl) w) as Hp.
  destruct (generate_podcast_upload env uid w) as [[up|e] w1] eqn:Hup;
    cbn [snd] in Hp.
  - rewrite (bind_Ok _ _ _ _ _ Hup).
    pose proof (generate_podcast_record_appends uid up w1) as Hrec.
    cbv zeta in Hrec. rewrite Hp in Hrec.
    destruct (generate_podcast_record env uid up w1) as [[summary|e] w2];
      cbn [fst snd raise is_ok] in *; exact Hrec.
  - rewrite (bind_Raise _ _ _ _ _ Hup). left. auto.
Qed.

(** The loop body, case by case: it never counts a user as skipped; it
    counts one as generated only when the streamed document has no
    last-generation value, and then one Program Record has been added; a
    user counted as an error may have left one Program Record. *)
Lemma weekly_job_step_cases results user_doc w :
  exists results' w',
    weekly_job_step env results user_doc w = (Ok results', w')
    /\ ((first_time user_doc = true
         /\ results' = mk_results (generated results + 1) (skipped results) (errors results)
         /\ length (podcasts w') = S (length (podcasts w)))
        \/ (results' = mk_results (generated results) (skipped results) (errors results + 1)
            /\ (length (podcasts w') = length (podcasts w)
                \/ length (podcasts w') = S (length (podcasts w))))).
Proof.
  unfold weekly_job_step, try_except, ask, lift, mret, M_ret, mbind, M_bind.
  rewrite should_generate_podcast_cases. unfold first_time.
  destruct (truthy _) eqn:Ht; cbn [negb].
  - eexists _, _. split; [reflexivity|]. right. auto.
  - pose proof (generate_podcast_appends user_doc.1 w) as Happ. cbv zeta in Happ.
    destruct (generate_podcast env user_doc.1 w) as [[summary|e] w'];
      cbn [fst snd is_ok] in Happ;
      eexists _, _; (split; [reflexivity|]).
    + left. destruct Happ as [[Hno _] | [record ->]]; [discriminate Hno|].
      rewrite length_app. cbn [length]. split; [reflexivity|]. split; [reflexivity | lia].
    + right. split; [reflexivity|].
      destruct Happ as [[_ ->] | [record ->]]; [left; reflexivity|].
      right. rewrite length_app. cbn [length]. lia.
Qed.

Lemma for_each_weekly_job_step_cases user_docs : forall results w,
  exists results' w' (g e d : nat),
    for_each (weekly_job_step env) user_docs results w = (Ok results', w')
    /\ skipped results' = skipped results
    /\ generated results' = generated results + Z.of_nat g
    /\ errors results' = errors results + Z.of_nat e
    /\ length (podcasts w') = (length (podcasts w) + d)%nat
    /\ (g <= d <= g + e)%nat
    /\ (g <= length (filter (fun u => first_time u = true) user_docs))%nat.
Proof.
  induction user_docs as [|user_doc user_docs IH]; intros results w.
  - exists results, w, 0%nat, 0%nat, 0%nat. cbn. repeat split; lia.
  - destruct (weekly_job_step_cases results user_doc w)
      as (results1 & w1 & Hstep & Hcase).
    destruct (IH results1 w1)
      as (results' & w' & g & e & d & Hrest & Hs & Hg & He & Hd & Hbound & Hfirst).
    cbn [for_each]. unfold mbind, M_bind. rewrite Hstep.
    destruct Hcase as [(Hft & -> & Hlen) | [-> Hlen]]; cbn [generated skipped errors] in *.
    + exists results', w', (S g), e, (S d).
      split; [exact Hrest|]. rewrite filter_cons_True by exact Hft.
      cbn [length]. repeat split; lia.
    + destruct Hlen as [Hlen | Hlen].
      * exists results', w', g, (S e), d.
        split; [exact Hrest|].
        assert (length (filter (fun u => first_time u = true) user_docs)
                <= length (filter (fun u => first_time u = true) (user_doc :: user_docs)))%nat.
        { rewrite filter_cons. case_decide; cbn [length]; lia. }
        repeat split; lia.
      * exists results', w', g, (S e), (S d).
        split; [exact Hrest|].
        assert (length (filter (fun u => first_time u = true) user_docs)
                <= length (filter (fun u => first_time u = true) (user_doc :: user_docs)))%nat.
        { rewrite filter_cons. case_decide; cbn [length]; lia. }
        repeat split; lia.
Qed.

Lemma run_weekly_job_Ok_inv w results w' :
  run_weekly_job env w = (Ok results, w') ->
  for_each (weekly_job_step env) (map_to_list (users w)) (mk_results 0 0 0) w
  = (Ok results, w').
Proof.
  unfold run_weekly_job, users_stream, try_except, attempt, ask, raise,
    mret, M_ret, mbind, M_bind.
  destruct (collection_stream_error env w); [intros [=]|].
  destruct (for_each _ _ _ w) as [[r|e] w1]; intros [= <- <-]; reflexivity.
Qed.

(** The job never reports a skipped user: the eligibility check answers for
    records without a last-generation value only, and those are the only
    users it can count as generated; every other user is an error. *)
Theorem run_weekly_job_never_skips w results w' :
  run_weekly_job env w = (Ok results, w') ->
  skipped results = 0
  /\ 0 <= generated results
     <= Z.of_nat (length (filter (fun u => first_time u = true) (map_to_list (users w))))
  /\ Z.of_nat (length (filter (fun u => first_time u = false) (map_to_list (users w))))
     <= errors results.
Proof.
  intros Hrun. apply run_weekly_job_Ok_inv in Hrun.
  destruct (for_each_weekly_job_step_cases (map_to_list (users w)) (mk_results 0 0 0) w)
    as (results' & w1 & g & e & d & Hrest & Hs & Hg & He & Hd & Hbound & Hfirst).
  rewrite Hrun in Hrest. injection Hrest as <- <-.
  cbn [generated skipped errors] in *.
  destruct (for_each_weekly_job_step env (map_to_list (users w)) (mk_results 0 0 0) w)
    as (results2 & w2 & Hrun2 & Htotal).
  rewrite Hrun in Hrun2. injection Hrun2 as <- <-.
  unfold total in Htotal. cbn [generated skipped errors] in Htotal.
  pose proof (first_time_split (map_to_list (users w))) as Hsplit.
  split; [exact Hs|]. split; lia.
Qed.

(** Program Records against the counts: each user counted as generated has
    left one record, and a user counted as an error at most one (the record
    is there when only the update of the user failed). *)
Theorem run_weekly_job_records w results w' :
  run_weekly_job env w = (Ok results, w') ->
  Z.of_nat (length (podcasts w)) + generated results
  <= Z.of_nat (length (podcasts w'))
  <= Z.of_nat (length (podcasts w)) + generated results + errors results.
Proof.
  intros Hrun. apply run_weekly_job_Ok_inv in Hrun.
  destruct (for_each_weekly_job_step_cases (map_to_list (users w)) (mk_results 0 0 0) w)
    as (results' & w1 & g & e & d & Hrest & Hs & Hg & He & Hd & Hbound & Hfirst).
  rewrite Hrun in Hrest. injection Hrest as <- <-.
  cbn [generated skipped errors] in *. lia.
Qed.
End Counts.


Module pydub_samples.
Import pydub.


Lemma py_slice_take {A} (l : list A) (k : Z) :
  0 <= k <= Z.of_nat (length l) -> py_slice l 0 k = take (Z.to_nat k) l.
Proof.
  intros H. unfold py_slice, py_bound.
  destruct (k <? 0) eqn:E; [apply Z.ltb_lt in E; lia|].
  cbn [Z.ltb Z.compare].
  replace (Z.min 0 (Z.of_nat (length l))) with 0 by lia.
  replace (Z.min k (Z.of_nat (length l))) with k by lia.
  rewrite Z.sub_0_r. reflexivity.
Qed.

Lemma py_slice_drop {A} (l : list A) (k : Z) :
  0 <= k <= Z.of_nat (length l) ->
  py_slice l k (Z.of_nat (length l)) = drop (Z.to_nat k) l.
Proof.
  intros H. unfold py_slice, py_bound.
  destruct (k <? 0) eqn:E; [apply Z.ltb_lt in E; lia|].
  destruct (Z.of_nat (length l) <? 0) eqn:E2; [apply Z.ltb_lt in E2; lia|].
  replace (Z.min k (Z.of_nat (length l))) with k by lia.
  rewrite Z.min_id. apply take_ge. rewrite length_drop. lia.
Qed.

(** [overlay] at position 0, sample by sample *)
Lemma overlay_samples seg1 seg2 :
  overlay seg1 seg2 0
  = Ok (_spawn (zip_with add_sample (_data seg1) (_data seg2)
                ++ drop (length (_data seg2)) (_data seg1))).
Proof.
  pose proof (pydub_facts.len_nonneg seg1) as H1.
  unfold overlay.
  rewrite pydub_facts.getitem_slice_to, pydub_facts.getitem_slice_from by lia.
  cbn [mbind result_bind _data]. cbv zeta.
  unfold len in *. rewrite !pydub_facts.py_slice_all.
  destruct seg1 as [l1], seg2 as [l2]. cbn [_data] in *.
  replace (Z.max 0 (Z.of_nat (length l1) - 0)) with (Z.of_nat (length l1)) by lia.
  rewrite (py_slice_take l1 0) by lia.
  change (Z.to_nat 0) with 0%nat. cbn [take app].
  destruct (Z.of_nat (length l1) <=? Z.of_nat (length l2)) eqn:E.
  - apply Z.leb_le in E. rewrite ?Z.add_0_l.
    rewrite (py_slice_take l1) by lia.
    rewrite (py_slice_take l2) by lia.
    rewrite (py_slice_drop l1) by lia.
    rewrite Nat2Z.id, (take_ge l1 (length l1)) by lia.
    unfold audioop_add. rewrite length_take.
    replace (length l1 =? length l1 `min` length l2)%nat
      with true by (symmetry; apply Nat.eqb_eq; lia).
    cbn [mbind result_bind].
    rewrite !drop_ge by lia. cbn [take app].
    rewrite zip_with_take_r. reflexivity.
  - apply Z.leb_gt in E. rewrite ?Z.add_0_l.
    rewrite py_slice_take by lia.
    rewrite py_slice_drop by lia.
    rewrite Nat2Z.id.
    unfold audioop_add. rewrite length_take.
    replace (length l2 `min` length l1 =? length l2)%nat
      with true by (symmetry; apply Nat.eqb_eq; lia).
    cbn [mbind result_bind take app].
    rewrite zip_with_take_l. reflexivity.
Qed.
End pydub_samples.

(** ** The mix against the canonical sequence *)

Lemma normalize_len db_to_float ratio_to_db seg :
  pydub.len (pydub.normalize db_to_float ratio_to_db seg) = pydub.len seg.
Proof.
  unfold pydub.normalize. cbv zeta.
  destruct (pydub.audioop_max (pydub._data seg) =? 0); [reflexivity|].
  apply pydub_facts.apply_gain_len.
Qed.

(** The overlay of the code against the overlay of the specification, on
    the samples: the first is the second cut to the length of the base. *)
Lemma overlay_canonical_cut (a b : list Z) :
  let cut := (zip_with add_sample a b ++ drop (length b) a)%list in
  let whole := (zip_with add_sample a b
                ++ drop (length b) a ++ drop (length a) b)%list in
  length cut = length a
  /\ length whole = (length a `max` length b)%nat
  /\ cut = take (length a) whole
  /\ (cut = whole <-> (length b <= length a)%nat).
Proof.
  cbv zeta.
  assert (Hcut : length (zip_with add_sample a b ++ drop (length b) a)%list
                 = length a)
    by (rewrite length_app, length_zip_with, length_drop; lia).
  split; [exact Hcut|].
  split; [rewrite !length_app, length_zip_with, !length_drop; lia|].
  split.
  - rewrite (assoc_L (++)). symmetry. apply take_app_length'. symmetry. exact Hcut.
  - split.
    + intros Heq. apply (f_equal length) in Heq.
      rewrite !length_app, length_zip_with, !length_drop in Heq. lia.
    + intros Hle. rewrite (drop_ge b) by lia. rewrite app_nil_r. reflexivity.
Qed.

(** C7: [mix_audio] does not return what the canonical sequence returns.
    For an intro of 3 seconds or more both return, the canonical sequence
    with a buffer as long as the longer input and the method with that
    buffer cut to the length of the intro: the two are equal exactly when
    the voice is no longer than the intro.  The method calls [overlay] on
    the intro, which cuts the voice to it. *)
Theorem mix_audio_cuts_canonical env intro_audio voice_audio :
  3000 <= pydub.len intro_audio ->
  exists mixed canon,
    mix_audio env intro_audio voice_audio = Ok mixed
    /\ mix_audio_canonical env intro_audio voice_audio = Ok canon
    /\ pydub.len mixed = pydub.len intro_audio
    /\ pydub.len canon = Z.max (pydub.len intro_audio) (pydub.len voice_audio)
    /\ pydub._data mixed
       = take (length (pydub._data intro_audio)) (pydub._data canon)
    /\ (mixed = canon <-> pydub.len voice_audio <= pydub.len intro_audio).
Proof.
  intros Hintro.
  destruct (pydub_facts.fade_out_len (db_to_float env) intro_audio 3000)
    as (faded & Hfade & Hfaded); [lia|].
  unfold mix_audio, mix_audio_canonical. rewrite Hfade.
  cbn [mbind result_bind]. rewrite !pydub_samples.overlay_samples.
  cbn [mbind result_bind].
  change (pydub.sub_gain (db_to_float env) faded 6)
    with (pydub.apply_gain (db_to_float env) faded (-6)).
  pose proof (pydub_facts.apply_gain_len (db_to_float env) faded (-6)) as Ha.
  pose proof (normalize_len (db_to_float env) (ratio_to_db env) voice_audio) as Hb.
  unfold overlay_canonical. cbv zeta.
  destruct (overlay_canonical_cut
              (pydub._data (pydub.apply_gain (db_to_float env) faded (-6)))
              (pydub._data (pydub.normalize (db_to_float env) (ratio_to_db env)
                              voice_audio)))
    as (Hlen_cut & Hlen_whole & Htake & Hiff).
  unfold pydub.len in *.
  eexists _, _. split; [reflexivity|]. split; [reflexivity|].
  cbn [pydub._data].
  split; [lia|]. split; [lia|].
  split.
  - replace (length (pydub._data intro_audio))
      with (length (pydub._data (pydub.apply_gain (db_to_float env) faded (-6))))
      by lia.
    exact Htake.
  - split.
    + intros [= Heq]. apply Hiff in Heq. lia.
    + intros Hle. f_equal. apply Hiff. lia.
Qed.

(** The failing input: the 3 seconds of silence that stand for a missing
    intro file, and a voice of 5 seconds.  The canonical sequence gives 5
    seconds, the method 3. *)
Lemma mix_audio_cuts_canonical_witness :
  exists mixed canon,
    mix_audio (demo_env NoFault) (pydub.silent 3000) demo_voice = Ok mixed
    /\ mix_audio_canonical (demo_env NoFault) (pydub.silent 3000) demo_voice
       = Ok canon
    /\ pydub.len mixed = 3000
    /\ pydub.len canon = 5000
    /\ mixed <> canon.
Proof.
  assert (Hintro : pydub.len (pydub.silent 3000) = 3000) by (vm_compute; reflexivity).
  assert (Hvoice : pydub.len demo_voice = 5000) by (vm_compute; reflexivity).
  destruct (mix_audio_cuts_canonical (demo_env NoFault) (pydub.silent 3000)
              demo_voice)
    as (mixed & canon & Hmix & Hcanon & Hlen & Hlen' & _ & Hiff).
  - rewrite Hintro. lia.
  - exists mixed, canon.
    split; [exact Hmix|]. split; [exact Hcanon|].
    split; [congruence|].
    split; [rewrite Hlen', Hintro, Hvoice; reflexivity|].
    intros Heq. apply Hiff in Heq. rewrite Hintro, Hvoice in Heq. lia.
Defined.

(** ** Intro selection and loading *)

Section Intro.
Variable env : Env.

Lemma select_random_intro_returns w :
  exists name, select_random_intro env w = (Ok name, w) /\ name ∈ intro_stingers.
Proof.
  unfold select_random_intro, random_choice, intro_stingers, list_getitem.
  cbn [length].
  assert (Hlt : (randbelow env w 2 mod 2 < 2)%nat) by (apply Nat.mod_upper_bound; lia).
  destruct (randbelow env w 2 mod 2)%nat as [|[|n]] eqn:E; [| |lia].
  - eexists. split; [reflexivity|]. left.
  - eexists. split; [reflexivity|]. right. left.
Qed.

(** Step 4 always returns: with no intro file installed it yields 3 seconds
    of silence whatever name is drawn, and step 6 then yields an episode of
    3 seconds whatever the voice. *)
Theorem missing_intro_gives_three_seconds w voice_audio :
  (forall name, name ∈ intro_stingers -> files w !! (intro_dir ++ "/" ++ name) = None) ->
  exists name mixed,
    select_random_intro env w = (Ok name, w)
    /\ name ∈ intro_stingers
    /\ load_intro_audio env name w = (Ok (pydub.silent 3000), w)
    /\ mix_audio env (pydub.silent 3000) voice_audio = Ok mixed
    /\ pydub.len mixed = 3000.
Proof.
  intros Hmissing.
  destruct (select_random_intro_returns w) as (name & Hselect & Hname).
  assert (Hsilent : pydub.len (pydub.silent 3000) = 3000) by (vm_compute; reflexivity).
  destruct (pydub_facts.fade_out_len (db_to_float env) (pydub.silent 3000) 3000)
    as (faded & Hfade & Hfaded); [rewrite Hsilent; lia|].
  destruct (mix_audio_len env (pydub.silent 3000) voice_audio faded Hfade)
    as (mixed & Hmix & Hlen).
  exists name, mixed.
  split; [exact Hselect|]. split; [exact Hname|]. split; [|split; [exact Hmix | congruence]].
  unfold load_intro_audio, os_path_exists, ask, mret, M_ret, mbind, M_bind.
  rewrite (Hmissing name Hname).
  rewrite bool_decide_eq_false_2 by (intros [? ?]; congruence).
  reflexivity.
Qed.

(** An intro file that exists is decoded, and the exception of the decoder
    is raised as it is: silence stands in for a missing file only. *)
Lemma existing_intro_is_decoded name w data :
  files w !! (intro_dir ++ "/" ++ name) = Some data ->
  load_intro_audio env name w = (decode_mp3 env w data, w).
Proof.
  intros Hfile.
  unfold load_intro_audio, os_path_exists, from_mp3, file_read, ask, call,
    mret, M_ret, mbind, M_bind.
  rewrite bool_decide_eq_true_2 by eauto. cbn [negb].
  rewrite Hfile. reflexivity.
Qed.
End Intro.

(** ** Upload *)

Section Upload.
Variable env : Env.

(** The two ways the upload fails: when the write is refused nothing has
    changed; when the write succeeds and [make_public] is refused the blob
    is in the bucket, not public, and stays there. *)
Theorem upload_failure_leaves uid audio_data w :
  let path := blob_path uid (datetime_now env w) in
  let w1 := set_bucket <[path := (audio_data, false)]> w in
  (forall e, upload_from_string_error env w path = Some e ->
             upload_to_firebase_storage env uid audio_data w = (Raise e, w))
  /\ (forall e, upload_from_string_error env w path = None ->
                make_public_error env w1 path = Some e ->
                upload_to_firebase_storage env uid audio_data w = (Raise e, w1)
                /\ bucket w1 !! path = Some (audio_data, false)).
Proof.
  cbv zeta. unfold upload_to_firebase_storage, blob_path, try_except, attempt,
    modify, ask, raise, mret, M_ret, mbind, M_bind.
  split.
  - intros e ->. reflexivity.
  - intros e -> ->. split; [reflexivity|].
    cbn [bucket set_bucket]. apply lookup_insert_eq.
Qed.

(** The blob name has the time of the upload to the second: a second upload
    for the same user within that second returns the same URL and replaces
    the first blob. *)
Theorem upload_same_second_overwrites uid data1 data2 w url1 w1 url2 w2 :
  upload_to_firebase_storage env uid data1 w = (Ok url1, w1) ->
  upload_to_firebase_storage env uid data2 w1 = (Ok url2, w2) ->
  strftime_compact (datetime_now env w1) = strftime_compact (datetime_now env w) ->
  url2 = url1
  /\ bucket w2 = <[blob_path uid (datetime_now env w) := (data2, true)]> (bucket w).
Proof.
  intros H1 H2 Hclock.
  apply upload_to_firebase_storage_Ok_inv in H1 as [-> ->].
  apply upload_to_firebase_storage_Ok_inv in H2 as [-> ->].
  unfold blob_path in *. cbn [bucket set_bucket]. rewrite Hclock.
  split; [reflexivity|].
  rewrite !insert_insert_eq. reflexivity.
Qed.
End Upload.

(** ** The samples of the mix *)

Lemma fbound_range v : pydub.minval <= pydub.fbound v <= pydub.maxval.
Proof. unfold pydub.fbound, pydub.minval, pydub.maxval. lia. Qed.

Lemma Forall_zip_with_all {A B C} (P : C -> Prop) (f : A -> B -> C) l k :
  (forall a b, P (f a b)) -> Forall P (zip_with f l k).
Proof.
  intros Hf. revert k. induction l as [|a l IH]; intros [|b k]; cbn; constructor; auto.
Qed.

Section Samples.
Variable env : Env.

(** The mixed buffer, sample by sample: the sum, clamped to 16 bits, of the
    attenuated faded intro and of the normalized voice while both last,
    then what is left of the attenuated faded intro; the samples of the
    voice past the end of the intro are dropped. *)
Theorem mix_audio_samples intro_audio voice_audio :
  match pydub.fade_out (db_to_float env) intro_audio 3000 with
  | Ok faded =>
      let attenuated :=
        pydub.audioop_mul (pydub._data faded) (db_to_float env (-6)) in
      let normalized :=
        pydub._data (pydub.normalize (db_to_float env) (ratio_to_db env) voice_audio) in
      mix_audio env intro_audio voice_audio
      = Ok (pydub._spawn (zip_with add_sample attenuated normalized
                          ++ drop (length normalized) attenuated))
  | Raise e => mix_audio env intro_audio voice_audio = Raise e
  end.
Proof.
  unfold mix_audio.
  destruct (pydub.fade_out (db_to_float env) intro_audio 3000) as [faded|e];
    [|reflexivity].
  cbn [mbind result_bind]. rewrite !pydub_samples.overlay_samples.
  cbn [mbind result_bind]. reflexivity.
Qed.

(** Every sample of the mixed buffer is a 16-bit value, whatever the
    samples of the inputs. *)
Theorem mix_audio_in_range intro_audio voice_audio mixed :
  mix_audio env intro_audio voice_audio = Ok mixed ->
  Forall (fun s => -32768 <= s <= 32767) (pydub._data mixed).
Proof.
  unfold mix_audio.
  destruct (pydub.fade_out (db_to_float env) intro_audio 3000) as [faded|e];
    [|intros [=]].
  cbn [mbind result_bind]. rewrite !pydub_samples.overlay_samples.
  cbn [mbind result_bind]. intros [= <-]. cbn [pydub._data].
  apply Forall_app. split.
  - apply Forall_zip_with_all. intros a b. apply fbound_range.
  - apply Forall_drop. unfold pydub.sub_gain, pydub.apply_gain, pydub.audioop_mul.
    cbn [pydub._data]. apply Forall_fmap, Forall_true.
    intros s. apply fbound_range.
Qed.
End Samples.

(** ** Requests to the speech backend *)

Section Requests.
Variable env : Env.

Lemma users_doc_get_world uid w : (users_doc_get env uid w).2 = w.
Proof.
  unfold users_doc_get, attempt, ask, mbind, M_bind.
  destruct (document_get_error env w uid); reflexivity.
Qed.

(** steps 1 to 8 make at most one request *)
Lemma generate_podcast_upload_posts uid w :
  posts (generate_podcast_upload env uid w).2 = posts w
  \/ exists url text,
       posts (generate_podcast_upload env uid w).2 = (posts w ++ [(url, text)])%list.
Proof.
  unfold generate_podcast_upload.
  pose proof (users_doc_get_world uid w) as Hw0.
  destruct (users_doc_get env uid w) as [[user_doc|e] w0] eqn:Hget;
    cbn [snd] in Hw0; subst w0.
  2:{ rewrite (bind_Raise _ _ _ _ _ Hget). left. reflexivity. }
  rewrite (bind_Ok _ _ _ _ _ Hget).
  destruct user_doc as [user_data|]; [|left; reflexivity].
  cbv zeta.
  pose proof (generate_podcast_script_frames env (fun w => w) user_data [] w) as Hw0.
  destruct (generate_podcast_script env user_data [] w) as [[text|e] w0] eqn:Hscript;
    cbn [snd] in Hw0; subst w0.
  2:{ rewrite (bind_Raise _ _ _ _ _ Hscript). left. reflexivity. }
  rewrite (bind_Ok _ _ _ _ _ Hscript).
  match goal with
  | |- context [generate_voice env text ?vid] =>
      pose proof (generate_voice_run env text vid w) as Hv; cbv zeta in Hv;
      set (url := elevenlabs_base_url ++ "/text-to-speech/" ++ py_str env vid) in Hv
  end.
  set (w2 := set_posts _ w) in Hv.
  assert (Hposts : posts w2 = (posts w ++ [(url, text)])%list) by reflexivity.
  clearbody w2.
  right. exists url, text.
  destruct (requests_post env w2 url text) as [voice_audio_data|e].
  2:{ rewrite (bind_Raise _ _ _ _ _ Hv). exact Hposts. }
  rewrite (bind_Ok _ _ _ _ _ Hv).
  rewrite <- Hposts. clear Hv Hposts Hget Hscript. revert w2.
  match goal with |- forall w2, posts (?m w2).2 = posts w2 =>
    change (frames posts m)
  end.
  unfold_steps. frames_tac.
Qed.

Lemma generate_podcast_posts uid w :
  (length (posts (generate_podcast env uid w).2) <= S (length (posts w)))%nat.
Proof.
  unfold generate_podcast, try_except.
  pose proof (generate_podcast_upload_posts uid w) as Hup.
  destruct (generate_podcast_upload env uid w) as [[up|e] w1] eqn:E; cbn [snd] in Hup.
  - rewrite (bind_Ok _ _ _ _ _ E).
    pose proof (generate_podcast_record_frames env posts uid up
                  (fun _ _ => eq_refl) (fun _ _ => eq_refl) w1) as Hrec.
    destruct (generate_podcast_record env uid up w1) as [[summary|e] w2];
      cbn [snd raise] in *; rewrite Hrec;
      destruct Hup as [-> | (url & text & ->)]; rewrite ?length_app; cbn [length]; lia.
  - rewrite (bind_Raise _ _ _ _ _ E). cbn [snd raise].
    destruct Hup as [-> | (url & text & ->)]; rewrite ?length_app; cbn [length]; lia.
Qed.

Lemma weekly_job_step_posts results user_doc w :
  (length (posts (weekly_job_step env results user_doc w).2)
   <= length (posts w) + (if first_time user_doc then 1 else 0))%nat.
Proof.
  unfold weekly_job_step, try_except, ask, lift, mret, M_ret, mbind, M_bind.
  rewrite should_generate_podcast_cases. unfold first_time.
  destruct (truthy _); cbn [negb snd]; [lia|].
  pose proof (generate_podcast_posts user_doc.1 w) as H.
  destruct (generate_podcast env user_doc.1 w) as [[summary|e] w']; cbn [snd] in *; lia.
Qed.

Lemma for_each_weekly_job_step_posts user_docs : forall results w,
  (length (posts (for_each (weekly_job_step env) user_docs results w).2)
   <= length (posts w) + length (filter (fun u => first_time u = true) user_docs))%nat.
Proof.
  induction user_docs as [|user_doc user_docs IH]; intros results w.
  - cbn. lia.
  - cbn [for_each]. unfold mbind, M_bind.
    destruct (weekly_job_step_counts env results user_doc w)
      as (results1 & w1 & Hstep & _).
    pose proof (weekly_job_step_posts results user_doc w) as H1.
    rewrite Hstep in *. cbn [snd] in H1.
    specialize (IH results1 w1).
    rewrite filter_cons.
    destruct (first_time user_doc); case_decide; try congruence; cbn [length]; lia.
Qed.

(** A run for one user sends at most one text to the speech backend; the
    weekly job sends at most one per user without a last-generation value,
    and none for the others. *)
Theorem speech_requests_bounded uid w :
  (length (posts (generate_podcast env uid w).2) <= S (length (posts w)))%nat
  /\ (length (posts (run_weekly_job env w).2)
      <= length (posts w)
         + length (filter (fun u => first_time u = true) (map_to_list (users w))))%nat.
Proof.
  split; [apply generate_podcast_posts|].
  unfold run_weekly_job, users_stream, try_except, attempt, ask, raise,
    mret, M_ret, mbind, M_bind.
  destruct (collection_stream_error env w); [cbn [snd]; lia|].
  pose proof (for_each_weekly_job_step_posts (map_to_list (users w))
                (mk_results 0 0 0) w) as H.
  destruct (for_each _ _ _ w) as [[results|e] w']; exact H.
Qed.

(** The timestamp a run that returns writes to the user's record makes the
    eligibility check raise for that user from then on, at any later time:
    the weekly job will count the user as an error. *)
Theorem served_user_never_eligible uid w summary w' :
  generate_podcast env uid w = (Ok summary, w') ->
  exists user_data',
    users w' !! uid = Some user_data'
    /\ first_time (uid, user_data') = false
    /\ forall off now, should_generate_podcast off now user_data' = Raise TypeError.
Proof.
  intros Hrun.
  apply generate_podcast_Ok_inv in Hrun as (up & w1 & Hup & Hrec).
  apply generate_podcast_record_Ok_inv in Hrec
    as (id & user_data & now' & created & updated & Hud & Hpodcasts & Husers
        & -> & _).
  eexists. rewrite Husers, lookup_insert_eq. split; [reflexivity|].
  assert (Ht : truthy (dict_get (dict_update user_data
                                   [("lastPodcast", PyDatetime updated);
                                    ("lastPodcastUrl", PyStr (audio_url up))])
                                "lastPodcast" PyNone) = true).
  { unfold dict_get. rewrite dict_lookup_update_last. reflexivity. }
  split.
  - unfold first_time. cbn [snd]. rewrite Ht. reflexivity.
  - intros off now. rewrite should_generate_podcast_cases, Ht. reflexivity.
Qed.
End Requests.

(** ** Service Boundary *)

Section Endpoints.
Variable env : Env.
Variable exn_text : exn -> string.

(** A request for a user that is not in the collection is answered with
    status 500 and the detail [User <uid> not found], and has done nothing. *)
Theorem generate_podcast_endpoint_unknown_user uid w :
  users w !! uid = None ->
  document_get_error env w uid = None ->
  generate_podcast_endpoint env exn_text uid w
  = (HTTPException 500 ("User " ++ uid ++ " not found"), w).
Proof.
  intros Hnone Hget.
  unfold generate_podcast_endpoint, generate_podcast, generate_podcast_upload,
    users_doc_get, try_except, attempt, ask, raise, mbind, M_bind.
  rewrite Hget, Hnone. reflexivity.
Qed.

(** When the stream of users opens, the batch request is answered with the
    success flag and the three counts, whatever happened to the users:
    [skipped] is 0, and [generated] and [errors] add up to the number of
    users. *)
Theorem run_weekly_job_endpoint_counts w :
  collection_stream_error env w = None ->
  exists g e w',
    run_weekly_job_endpoint env exn_text w
    = (Returns [("success", PyBool true);
                ("results", PyDict [("generated", PyInt g);
                                    ("skipped", PyInt 0);
                                    ("errors", PyInt e)])], w')
    /\ g + e = Z.of_nat (size (users w)).
Proof.
  intros Hstream.
  destruct (for_each_weekly_job_step env (map_to_list (users w)) (mk_results 0 0 0) w)
    as (results & w' & Hloop & Htotal).
  destruct (for_each_weekly_job_step_cases env (map_to_list (users w)) (mk_results 0 0 0) w)
    as (results' & w1 & g & e & d & Hrest & Hs & _).
  rewrite Hloop in Hrest. injection Hrest as <- <-. cbn [skipped] in Hs.
  assert (Hrun : run_weekly_job env w = (Ok results, w')).
  { unfold run_weekly_job, users_stream, try_except, attempt, ask, raise,
      mret, M_ret, mbind, M_bind.
    rewrite Hstream, Hloop. reflexivity. }
  exists (generated results), (errors results), w'.
  unfold run_weekly_job_endpoint. rewrite Hrun, Hs.
  split; [reflexivity|].
  unfold total in Htotal. cbn [generated skipped errors] in Htotal.
  rewrite length_map_to_list in Htotal. lia.
Qed.
End Endpoints.

(** ** The properties above, on the example world *)

Lemma demo_run_returns :
  is_ok (generate_podcast (demo_env NoFault) "alice" demo_world).1 = true.
Proof. vm_compute. reflexivity. Qed.

Lemma demo_run_bob_returns :
  is_ok (generate_podcast (demo_env NoFault) "bob" demo_world).1 = true.
Proof. vm_compute. reflexivity. Qed.

Lemma demo_job_returns :
  is_ok (run_weekly_job (demo_env NoFault) demo_world).1 = true.
Proof. vm_compute. reflexivity. Qed.

(** the run of the example, as a hypothesis [Hrun] *)
Ltac demo_run uid Hreturns summary w' Hrun :=
  destruct (generate_podcast (demo_env NoFault) uid demo_world)
    as [[summary|?] w'] eqn:Hrun;
  [|discriminate Hreturns].

Lemma generate_podcast_creates_record_witness :
  exists summary w' id record,
    generate_podcast (demo_env NoFault) "alice" demo_world = (Ok summary, w')
    /\ podcasts w' = [(id, record)]
    /\ dict_lookup record "userId" = Some (PyStr "alice")
    /\ dict_lookup record "status" = Some (PyStr "completed").
Proof.
  pose proof demo_run_returns as Hreturns.
  demo_run "alice" Hreturns summary w' Hrun.
  destruct (generate_podcast_creates_record _ _ _ _ _ Hrun)
    as (id & record & text & name & Hp & _ & Huser & Hstatus & _).
  exists summary, w', id, record.
  split; [reflexivity|]. split; [exact Hp|]. split; [exact Huser | exact Hstatus].
Defined.

Lemma generate_podcast_updates_user_witness :
  exists summary w' user_data' stamp url,
    generate_podcast (demo_env NoFault) "alice" demo_world = (Ok summary, w')
    /\ users w' !! "alice" = Some user_data'
    /\ users w' !! "bob" = Some bob
    /\ dict_lookup user_data' "lastPodcast" = Some (PyDatetime stamp)
    /\ dict_lookup user_data' "lastPodcastUrl" = Some (PyStr url).
Proof.
  pose proof demo_run_returns as Hreturns.
  demo_run "alice" Hreturns summary w' Hrun.
  destruct (generate_podcast_updates_user _ _ _ _ _ Hrun)
    as (user_data & user_data' & stamp & url & Hud & Hu & Hlast & Hurl & _).
  exists summary, w', user_data', stamp, url.
  split; [reflexivity|]. rewrite Hu.
  split; [apply lookup_insert_eq|].
  split; [rewrite lookup_insert_ne by discriminate; reflexivity|].
  split; [exact Hlast | exact Hurl].
Defined.

Lemma generate_podcast_stores_blob_witness :
  exists summary w' data,
    generate_podcast (demo_env NoFault) "alice" demo_world = (Ok summary, w')
    /\ dict_lookup summary "audioUrl"
       = Some (PyStr (public_url (demo_env NoFault) (blob_path "alice" demo_now)))
    /\ bucket w' !! blob_path "alice" demo_now = Some (data, true).
Proof.
  pose proof demo_run_returns as Hreturns.
  demo_run "alice" Hreturns summary w' Hrun.
  destruct (generate_podcast_stores_blob _ _ _ _ _ Hrun)
    as (data & w1 & _ & Hurl & Hblob & _).
  exists summary, w', data.
  split; [reflexivity|]. split; [exact Hurl | exact Hblob].
Defined.

Lemma generate_podcast_removes_temp_files_witness :
  exists summary w',
    generate_podcast (demo_env NoFault) "alice" demo_world = (Ok summary, w')
    /\ files w' = ∅.
Proof.
  pose proof demo_run_returns as Hreturns.
  demo_run "alice" Hreturns summary w' Hrun.
  pose proof (generate_podcast_removes_temp_files _ _ _ _ _ Hrun) as Hsub.
  exists summary, w'. split; [reflexivity|].
  apply map_eq. intros name. rewrite lookup_empty.
  destruct (files w' !! name) as [data|] eqn:E; [|reflexivity].
  eapply lookup_weaken in E; [|exact Hsub]. discriminate E.
Defined.

Lemma generate_podcast_uses_preferred_voice_witness :
  exists summary w' id record text,
    generate_podcast (demo_env NoFault) "bob" demo_world = (Ok summary, w')
    /\ podcasts w' = [(id, record)]
    /\ dict_lookup record "voiceId" = Some (PyStr "pNInz6obpgDQGcFmaJgB")
    /\ posts w' = [("https://api.elevenlabs.io/v1/text-to-speech/pNInz6obpgDQGcFmaJgB", text)].
Proof.
  pose proof demo_run_bob_returns as Hreturns.
  demo_run "bob" Hreturns summary w' Hrun.
  destruct (generate_podcast_uses_preferred_voice (demo_env NoFault) "bob" demo_world
              summary w' bob "pNInz6obpgDQGcFmaJgB")
    as (id & record & text & Hp & Hvoice & Hposts);
    [reflexivity | reflexivity | exact Hrun |].
  exists summary, w', id, record, text.
  split; [reflexivity|]. split; [exact Hp|]. split; [exact Hvoice | exact Hposts].
Defined.

Lemma generate_podcast_unknown_user_witness :
  generate_podcast (demo_env NoFault) "carol" demo_world
  = (Raise (ValueError "User carol not found"), demo_world).
Proof.
  destruct (generate_podcast_unknown_user (demo_env NoFault) "carol" demo_world)
    as (e & Hrun & He); [reflexivity|].
  rewrite Hrun, (He eq_refl). reflexivity.
Defined.

Lemma run_weekly_job_never_skips_witness :
  exists results w',
    run_weekly_job (demo_env NoFault) demo_world = (Ok results, w')
    /\ skipped results = 0
    /\ generated results <= 1
    /\ 1 <= errors results.
Proof.
  pose proof demo_job_returns as Hreturns.
  destruct (run_weekly_job (demo_env NoFault) demo_world)
    as [[results|?] w'] eqn:Hrun; [|discriminate Hreturns].
  destruct (run_weekly_job_never_skips _ _ _ _ Hrun) as (Hs & Hg & He).
  exists results, w'.
  assert (Hfirst : length (filter (fun u => first_time u = true)
                             (map_to_list (users demo_world))) = 1%nat)
    by (vm_compute; reflexivity).
  assert (Hlater : length (filter (fun u => first_time u = false)
                             (map_to_list (users demo_world))) = 1%nat)
    by (vm_compute; reflexivity).
  rewrite Hfirst in Hg. rewrite Hlater in He.
  split; [reflexivity|]. split; [exact Hs|]. split; lia.
Defined.

Lemma run_weekly_job_records_witness :
  exists results w',
    run_weekly_job (demo_env NoFault) demo_world = (Ok results, w')
    /\ generated results <= Z.of_nat (length (podcasts w'))
       <= generated results + errors results.
Proof.
  pose proof demo_job_returns as Hreturns.
  destruct (run_weekly_job (demo_env NoFault) demo_world)
    as [[results|?] w'] eqn:Hrun; [|discriminate Hreturns].
  pose proof (run_weekly_job_records _ _ _ _ Hrun) as H.
  exists results, w'. split; [reflexivity|]. cbn [podcasts demo_world length] in H. lia.
Defined.

Lemma missing_intro_gives_three_seconds_witness :
  exists name mixed,
    load_intro_audio (demo_env NoFault) name demo_world
    = (Ok (pydub.silent 3000), demo_world)
    /\ mix_audio (demo_env NoFault) (pydub.silent 3000) demo_voice = Ok mixed
    /\ pydub.len mixed = 3000.
Proof.
  destruct (missing_intro_gives_three_seconds (demo_env NoFault) demo_world demo_voice)
    as (name & mixed & _ & _ & Hload & Hmix & Hlen).
  - intros name _. reflexivity.
  - exists name, mixed.
    split; [exact Hload|]. split; [exact Hmix | exact Hlen].
Defined.

Lemma upload_failure_leaves_witness :
  let data := [Byte.xff; Byte.xfb] in
  let path := blob_path "alice" demo_now in
  upload_to_firebase_storage (demo_env UploadFails) "alice" data demo_world
  = (Raise (OtherError "ServiceUnavailable"), demo_world)
  /\ exists w1,
       upload_to_firebase_storage private_env "alice" data demo_world
       = (Raise (OtherError "Forbidden"), w1)
       /\ bucket w1 !! path = Some (data, false).
Proof.
  intros data path. split.
  - destruct (upload_failure_leaves (demo_env UploadFails) "alice" data demo_world)
      as [H _].
    apply H. reflexivity.
  - destruct (upload_failure_leaves private_env "alice" data demo_world)
      as [_ H].
    destruct (H (OtherError "Forbidden") eq_refl eq_refl) as [Hrun Hblob].
    eexists. split; [exact Hrun | exact Hblob].
Defined.

Lemma upload_same_second_overwrites_witness :
  exists url1 w1 url2 w2,
    upload_to_firebase_storage (demo_env NoFault) "alice" [Byte.x01] demo_world
    = (Ok url1, w1)
    /\ upload_to_firebase_storage (demo_env NoFault) "alice" [Byte.x02] w1
       = (Ok url2, w2)
    /\ url2 = url1
    /\ bucket w2 !! blob_path "alice" demo_now = Some ([Byte.x02], true).
Proof.
  destruct (upload_to_firebase_storage (demo_env NoFault) "alice" [Byte.x01] demo_world)
    as [[url1|e] w1] eqn:H1; [|discriminate H1].
  destruct (upload_to_firebase_storage (demo_env NoFault) "alice" [Byte.x02] w1)
    as [[url2|e] w2] eqn:H2; [|discriminate H2].
  destruct (upload_same_second_overwrites _ _ _ _ _ _ _ _ _ H1 H2 eq_refl)
    as [Hurl Hbucket].
  exists url1, w1, url2, w2.
  split; [reflexivity|]. split; [exact H2|]. split; [exact Hurl|].
  rewrite Hbucket. apply lookup_insert_eq.
Defined.

Lemma mix_audio_in_range_witness :
  exists mixed,
    mix_audio (demo_env NoFault) (pydub.silent 3000) demo_voice = Ok mixed
    /\ Forall (fun s => -32768 <= s <= 32767) (pydub._data mixed).
Proof.
  assert (Hok : is_ok (mix_audio (demo_env NoFault) (pydub.silent 3000) demo_voice) = true)
    by (vm_compute; reflexivity).
  destruct (mix_audio (demo_env NoFault) (pydub.silent 3000) demo_voice)
    as [mixed|e] eqn:Hmix; [|discriminate Hok].
  exists mixed. split; [reflexivity|].
  exact (mix_audio_in_range _ _ _ _ Hmix).
Defined.

Lemma served_user_never_eligible_witness :
  exists summary w' user_data',
    generate_podcast (demo_env NoFault) "alice" demo_world = (Ok summary, w')
    /\ users w' !! "alice" = Some user_data'
    /\ should_generate_podcast 0 (mk_datetime 2024 3 29 12 0 0 0 None) user_data'
       = Raise TypeError.
Proof.
  pose proof demo_run_returns as Hreturns.
  demo_run "alice" Hreturns summary w' Hrun.
  destruct (served_user_never_eligible _ _ _ _ _ Hrun)
    as (user_data' & Hud & _ & Hraises).
  exists summary, w', user_data'.
  split; [reflexivity|]. split; [exact Hud | apply Hraises].
Defined.

Lemma generate_podcast_endpoint_unknown_user_witness :
  generate_podcast_endpoint (demo_env NoFault) (fun _ => "") "carol" demo_world
  = (HTTPException 500 "User carol not found", demo_world).
Proof.
  apply (generate_podcast_endpoint_unknown_user (demo_env NoFault) (fun _ => "")
           "carol" demo_world); reflexivity.
Defined.

Lemma run_weekly_job_endpoint_counts_witness :
  exists g e w',
    run_weekly_job_endpoint (demo_env NoFault) (fun _ => "") demo_world
    = (Returns [("success", PyBool true);
                ("results", PyDict [("generated", PyInt g);
                                    ("skipped", PyInt 0);
                                    ("errors", PyInt e)])], w')
    /\ g + e = 2.
Proof.
  destruct (run_weekly_job_endpoint_counts (demo_env NoFault) (fun _ => "")
              demo_world eq_refl) as (g & e & w' & Hrun & Hsum).
  exists g, e, w'. split; [exact Hrun | exact Hsum].
Defined.
